(** * GitHub Achievements dashboard: achievement evaluator, fetchers and
      repository presenter

    A shallow embedding of the logic of [src/App.tsx] (component [App]) and of
    the repository list component ([RepositoryList]), followed by the
    properties of the specification that were checked against it.

    Modelling conventions.
    - A JavaScript [number] holding a count ([public_repos], [followers],
      [stargazers_count]) or a time value in milliseconds is an integer [Z].
      The results of [/] and [*] on such numbers are exact rationals [Q]:
      this agrees with IEEE-754 doubles whenever the mathematical result is
      representable (all the values named in the specification are), and
      differs from it in the last binary digits otherwise (for instance
      [1/3*100]).  [Math.floor] of a quotient of time values is the floor of
      the exact quotient, which is what doubles give for instants less than
      2^27 days apart.
    - [new Date(s).getTime()] is [Some t] for a date string that parses and
      [None] for an Invalid Date, whose time value is [NaN]; every ordering
      comparison with [NaN] is false.  The parser of the host is a parameter
      [Date_parse]; [Date_parse_iso] is an instance for the date format of
      the GitHub API.
    - Component state and toasts are threaded through a small state monad
      with completions (normal, [return], [throw]) for the [async] functions
      and their [try]/[catch]/[finally] blocks.
    - Arrays that the component holds by reference live in a store, so that
      copying ([[...repos]]) and sorting in place can be told apart. *)

From Stdlib Require Import ZArith QArith Qminmax Qround Lia.
From Stdlib Require Import List Sorted Permutation.
From Stdlib Require Import Ascii String DecimalString DecimalPos DecimalZ.
From Stdlib Require Import OrderedTypeEx.
From stdpp Require Import base option list gmap strings.

Local Open Scope string_scope.
Local Open Scope list_scope.
Local Open Scope Z_scope.

(** ** JavaScript built-ins used by the two components *)

Module JS.

(** [Math.min(a, b)] on finite numbers. *)
Definition Math_min (a b : Q) : Q := Qmin a b.

(** [Array.prototype.includes] on an array of strings. *)
Definition includes (l : list string) (x : string) : bool :=
  existsb (String.eqb x) l.

(** [Array.prototype.push(...items)]: appends at the end. *)
Definition push {A} (l : list A) (items : list A) : list A := l ++ items.

(** A time value: [None] is [NaN]. *)
Definition timeValue := option Z.

(** [a - b] on time values. *)
Definition sub (a b : timeValue) : timeValue :=
  match a, b with
  | Some x, Some y => Some (x - y)
  | _, _ => None
  end.

(** [a / d] for a non-zero constant [d]. *)
Definition div (a : timeValue) (d : Z) : option Q :=
  match a with
  | Some x => Some (inject_Z x / inject_Z d)%Q
  | None => None
  end.

(** [a > b]: false when [a] is [NaN]. *)
Definition gt (a : option Q) (b : Q) : bool :=
  match a with
  | Some x => if Qlt_le_dec b x then true else false
  | None => false
  end.

(** Number-to-string conversion of an integer, as a template literal does
    it (decimal digits, a leading minus sign for negatives). *)
Definition toString (n : Z) : string := NilZero.string_of_int (Z.to_int n).

(** The double quote character, for string literals that contain it. *)
Definition dquote : string := String (ascii_of_nat 34) EmptyString.

(** [Math.floor] of a finite number. *)
Definition Math_floor (a : Q) : Z := Qfloor a.

(** *** [Array.prototype.sort(comparefn)]

    The value of a comparison as the sort reads it: the number returned by
    [comparefn], where [NaN] ([None]) counts as [+0]. *)
Definition sortCompare {A} (comparefn : A -> A -> option Z) (x y : A) : Z :=
  match comparefn x y with
  | Some v => v
  | None => 0
  end.

(** The sort is stable (ECMAScript 2019).  For a consistent comparator the
    sorted, stable rearrangement of the elements is unique
    ([stable_sorted_unique] below), so every conforming engine returns the
    list that this insertion sort computes; for an inconsistent comparator
    the order is implementation-defined and this model is one admissible
    choice. *)
Fixpoint sort_insert {A} (comparefn : A -> A -> option Z) (x : A)
    (l : list A) : list A :=
  match l with
  | [] => [x]
  | y :: l' =>
      if sortCompare comparefn x y <=? 0 then x :: y :: l'
      else y :: sort_insert comparefn x l'
  end.

Fixpoint sort {A} (comparefn : A -> A -> option Z) (l : list A) : list A :=
  match l with
  | [] => []
  | x :: l' => sort_insert comparefn x (sort comparefn l')
  end.

(** *** An instance of the date parser

    [Date_parse_iso] reads the UTC timestamps of the GitHub API,
    [YYYY-MM-DDTHH:MM:SSZ], to milliseconds since the epoch; every other
    string is an Invalid Date. *)
Definition digit (c : ascii) : option Z :=
  let n := Z.of_nat (nat_of_ascii c) in
  if (48 <=? n) && (n <=? 57) then Some (n - 48) else None.

Fixpoint digits (acc : Z) (l : list ascii) : option Z :=
  match l with
  | [] => Some acc
  | c :: l' =>
      match digit c with
      | Some d => digits (10 * acc + d) l'
      | None => None
      end
  end.

Definition is_leap (y : Z) : bool :=
  (y mod 4 =? 0) && (negb (y mod 100 =? 0) || (y mod 400 =? 0)).

Definition days_in_month (y m : Z) : Z :=
  if m =? 2 then (if is_leap y then 29 else 28)
  else if (m =? 4) || (m =? 6) || (m =? 9) || (m =? 11) then 30
  else 31.

(** Days from 1970-01-01 to the civil date [y]-[m]-[d]. *)
Definition days_from_civil (y m d : Z) : Z :=
  let y' := if m <=? 2 then y - 1 else y in
  let era := y' / 400 in
  let yoe := y' - era * 400 in
  let mp := if m >? 2 then m - 3 else m + 9 in
  let doy := (153 * mp + 2) / 5 + d - 1 in
  let doe := yoe * 365 + yoe / 4 - yoe / 100 + doy in
  era * 146097 + doe - 719468.

Definition Date_parse_iso (s : string) : timeValue :=
  match list_ascii_of_string s with
  | [y1; y2; y3; y4; c1; m1; m2; c2; d1; d2; c3;
     h1; h2; c4; n1; n2; c5; s1; s2; c6] =>
      if Ascii.eqb c1 "-" && Ascii.eqb c2 "-" && Ascii.eqb c3 "T"
         && Ascii.eqb c4 ":" && Ascii.eqb c5 ":" && Ascii.eqb c6 "Z"
      then
        match digits 0 [y1; y2; y3; y4], digits 0 [m1; m2],
              digits 0 [d1; d2], digits 0 [h1; h2], digits 0 [n1; n2],
              digits 0 [s1; s2] with
        | Some y, Some m, Some d, Some h, Some n, Some sec =>
            if (1 <=? m) && (m <=? 12) && (1 <=? d)
               && (d <=? days_in_month y m)
               && (h <=? 23) && (n <=? 59) && (sec <=? 59)
            then Some ((((days_from_civil y m d * 24 + h) * 60 + n) * 60
                        + sec) * 1000)
            else None
        | _, _, _, _, _, _ => None
        end
      else None
  | _ => None
  end.

End JS.

(** ** Asynchronous functions with [try]/[catch]/[finally]

    An action runs on a component state [S] and ends normally with a value,
    by a [return] statement, or by a thrown exception (a rejected promise). *)

Module Async.

Inductive completion (A : Type) : Type :=
| Normal (a : A)
| Return
| Throw.
Arguments Normal {A} a.
Arguments Return {A}.
Arguments Throw {A}.

Definition M (S A : Type) : Type := S -> completion A * S.

Definition ret {S A} (a : A) : M S A := fun s => (Normal a, s).

Definition bind {S A B} (m : M S A) (k : A -> M S B) : M S B :=
  fun s =>
    match m s with
    | (Normal a, s') => k a s'
    | (Return, s') => (Return, s')
    | (Throw, s') => (Throw, s')
    end.

Definition get {S} : M S S := fun s => (Normal s, s).
Definition modify {S} (f : S -> S) : M S unit := fun s => (Normal tt, f s).
Definition return_ {S A} : M S A := fun s => (Return, s).
Definition throw {S A} : M S A := fun s => (Throw, s).

(** [try { body } catch { handler } finally { fin }]: the handler runs when
    the body throws, [fin] always runs last, and an abrupt completion of
    [fin] replaces the one before it. *)
Definition tryCatchFinally {S} (body handler fin : M S unit) : M S unit :=
  fun s =>
    let '(c1, s1) := body s in
    let '(c2, s2) :=
      match c1 with
      | Throw => handler s1
      | _ => (c1, s1)
      end in
    let '(c3, s3) := fin s2 in
    match c3 with
    | Normal _ => (c2, s3)
    | _ => (c3, s3)
    end.

(** The state in which a call of the function leaves the component. *)
Definition exec {S A} (m : M S A) (s : S) : S := snd (m s).

End Async.

Notation "x <- m ;; k" := (Async.bind m (fun x => k))
  (at level 100, m at next level, right associativity).
Notation "m ;; k" := (Async.bind m (fun _ => k))
  (at level 100, right associativity).

(** ** Network and notifications *)

(** What [await fetch(url)] followed by [await response.json()] yields:
    the transport fails (the promise rejects before any status exists), or a
    response arrives with a status and a body; the body is [None] when
    [response.json()] rejects or the parsed value cannot be read. *)
Inductive FetchOutcome (Body : Type) : Type :=
| NetworkFailure
| Responded (status : Z) (body : option Body).
Arguments NetworkFailure {Body}.
Arguments Responded {Body} status body.

(** [response.ok]: the status is in the range 200-299. *)
Definition ok (status : Z) : bool := (200 <=? status) && (status <=? 299).

Inductive ToastLevel := ToastError | ToastSuccess.

(** A call [toast.error(title, { description })] or [toast.success(...)]. *)
Record Toast := mkToast {
  level : ToastLevel;
  title : string;
  description : option string
}.

(** ** Data model *)

(** [UserData] of [@/lib/achievements], as [fetchUserData] builds it. *)
Record UserData := mkUserData {
  login : string;
  avatarUrl : string;
  publicRepos : Z;
  followers : Z;
  following : Z;
  createdAt : string
}.

(** The fields of the response of [GET /users/{username}] that
    [fetchUserData] reads. *)
Record ApiUser := mkApiUser {
  api_login : string;
  api_avatar_url : string;
  api_public_repos : Z;
  api_followers : Z;
  api_following : Z;
  api_created_at : string
}.

(** [Achievement] of [@/lib/achievements]: only [id] is read by the logic;
    the display metadata is not modelled. *)
Module Achievement.
Record t := mk { id : string }.
End Achievement.

(** [Repository] (RepositoryList, lines 9-22). *)
Module Repository.
Record t := mk {
  id : Z;
  name : string;
  full_name : string;
  description : option string;
  html_url : string;
  stargazers_count : Z;
  forks_count : Z;
  watchers_count : Z;
  language : option string;
  updated_at : string;
  topics : list string;
  private : bool
}.
End Repository.

(** [1000 * 60 * 60 * 24], the milliseconds of a day. *)
Definition msPerDay : Z := 1000 * 60 * 60 * 24.

(** ** Component [App] (App.tsx) *)

Module App.

Record State := mkState {
  userData : option UserData;
  unlockedAchievements : option (list string);
  isLoading : bool;
  toasts : list Toast;
  requests : list string
}.

Definition M := Async.M State.

Definition setUserData (u : UserData) : M unit :=
  Async.modify (fun s =>
    mkState (Some u) (unlockedAchievements s) (isLoading s) (toasts s)
            (requests s)).

Definition setUnlockedAchievements (f : unit -> list string) : M unit :=
  Async.modify (fun s =>
    mkState (userData s) (Some (f tt)) (isLoading s) (toasts s)
            (requests s)).

Definition setIsLoading (b : bool) : M unit :=
  Async.modify (fun s =>
    mkState (userData s) (unlockedAchievements s) b (toasts s)
            (requests s)).

Definition toast (t : Toast) : M unit :=
  Async.modify (fun s =>
    mkState (userData s) (unlockedAchievements s) (isLoading s)
            (toasts s ++ [t]) (requests s)).

Definition toast_error (ttl : string) (descr : option string) : M unit :=
  toast (mkToast ToastError ttl descr).

Definition toast_success (ttl : string) (descr : option string) : M unit :=
  toast (mkToast ToastSuccess ttl descr).

(** [await fetch(url)]: the request is issued, then the promise rejects or
    resolves to the status of the response. *)
Definition fetch (url : string) (net : FetchOutcome ApiUser) : M Z :=
  Async.modify (fun s =>
    mkState (userData s) (unlockedAchievements s) (isLoading s) (toasts s)
            (requests s ++ [url])) ;;
  match net with
  | NetworkFailure => Async.throw
  | Responded status _ => Async.ret status
  end.

(** [await response.json()]. *)
Definition json (net : FetchOutcome ApiUser) : M ApiUser :=
  match net with
  | Responded _ (Some data) => Async.ret data
  | _ => Async.throw
  end.

Section WithDate.

Variable Date_parse : string -> JS.timeValue.

(** The array [unlocked] built by [simulateUnlockedAchievements]
    (lines 84-103); [now] is the value of [Date.now()]. *)
Definition simulateUnlockedAchievements_unlocked
    (now : Z) (user : UserData) : list string :=
  let unlocked : list string := [] in
  let unlocked :=
    if publicRepos user >=? 2
    then JS.push unlocked ["yolo"; "quickdraw"]
    else unlocked in
  let unlocked :=
    if publicRepos user >=? 5
    then JS.push unlocked ["open-sourcerer"; "heart-on-sleeve"]
    else unlocked in
  let unlocked :=
    if followers user >=? 10
    then JS.push unlocked ["pair-extraordinaire"]
    else unlocked in
  let accountAge := JS.sub (Some now) (Date_parse (createdAt user)) in
  let daysOld := JS.div accountAge msPerDay in
  let unlocked :=
    if JS.gt daysOld 365 then JS.push unlocked ["pull-shark"]
    else unlocked in
  unlocked.

(** [simulateUnlockedAchievements] (lines 83-106). *)
Definition simulateUnlockedAchievements (now : Z) (user : UserData)
  : M unit :=
  let unlocked := simulateUnlockedAchievements_unlocked now user in
  setUnlockedAchievements (fun _ => unlocked).

(** [fetchUserData] (lines 39-81); [net] is what the network answers to
    the one request of the call. *)
Definition fetchUserData (now : Z) (username : string)
    (net : FetchOutcome ApiUser) : M unit :=
  setIsLoading true ;;
  Async.tryCatchFinally
    (status <- fetch ("https://api.github.com/users/" +:+ username) net ;;
     if negb (ok status) then
       (if status =? 404 then
          toast_error "User not found"
            (Some ("The username " +:+ JS.dquote +:+ username +:+ JS.dquote
                   +:+ " does not exist on GitHub."))
        else
          toast_error "Failed to fetch user data"
            (Some "Please try again later.")) ;;
       setIsLoading false ;;
       Async.return_
     else
       data <- json net ;;
       let user :=
         {| login := api_login data;
            avatarUrl := api_avatar_url data;
            publicRepos := api_public_repos data;
            followers := api_followers data;
            following := api_following data;
            createdAt := api_created_at data |} in
       setUserData user ;;
       simulateUnlockedAchievements now user ;;
       toast_success "Profile loaded!"
         (Some ("Viewing achievements for @" +:+ username)))
    (toast_error "Network error"
       (Some "Could not connect to GitHub API."))
    (setIsLoading false).

End WithDate.

(** [getAchievementProgress] (lines 108-127); the first two arguments are
    the slots [userData] and [unlockedAchievements] the closure reads. *)
Definition getAchievementProgress
    (userData : option UserData)
    (unlockedAchievements : option (list string))
    (achievement : Achievement.t) : Q :=
  match userData, unlockedAchievements with
  | Some userData, Some unlockedAchievements =>
      if JS.includes unlockedAchievements (Achievement.id achievement)
      then 100%Q
      else if String.eqb (Achievement.id achievement) "pull-shark"
      then JS.Math_min ((inject_Z (publicRepos userData) / 2) * 100) 99
      else if String.eqb (Achievement.id achievement) "starstruck"
      then JS.Math_min ((inject_Z (followers userData) / 16) * 100) 99
      else if String.eqb (Achievement.id achievement) "open-sourcerer"
      then JS.Math_min ((inject_Z (publicRepos userData) / 3) * 100) 99
      else if String.eqb (Achievement.id achievement) "pair-extraordinaire"
      then JS.Math_min ((inject_Z (followers userData) / 10) * 100) 99
      else if publicRepos userData >? 0 then 25%Q else 0%Q
  | _, _ => 0%Q
  end.

End App.

(** ** Component [RepositoryList] *)

Module RepositoryList.

(** The three values of [sortBy]. *)
Inductive SortMode := updated | stars | name.

(** The arrays of repositories live in [store]; [repos] is the reference
    the state variable holds. *)
Record State := mkState {
  store : gmap nat (list Repository.t);
  repos : nat;
  isLoading : bool;
  sortBy : SortMode;
  toasts : list Toast;
  requests : list string
}.

Definition M := Async.M State.

(** The array behind a reference. *)
Definition contents (s : State) (r : nat) : list Repository.t :=
  default [] (store s !! r).

(** *** Arrays in the store *)

(** A new array with the elements [l]. *)
Definition alloc (l : list Repository.t) : M nat :=
  fun s =>
    let r := fresh (dom (store s)) in
    (Async.Normal r,
     mkState (<[r := l]> (store s)) (repos s) (isLoading s) (sortBy s)
             (toasts s) (requests s)).

(** [[...a]]: a new array with the elements of [a]. *)
Definition spread (a : nat) : M nat :=
  s <- Async.get ;;
  alloc (contents s a).

(** [a.sort(comparefn)]: sorts the array [a] in place and returns [a]. *)
Definition Array_sort (a : nat)
    (comparefn : Repository.t -> Repository.t -> option Z) : M nat :=
  Async.modify (fun s =>
    mkState (<[a := JS.sort comparefn (contents s a)]> (store s)) (repos s)
            (isLoading s) (sortBy s) (toasts s) (requests s)) ;;
  Async.ret a.

(** *** State setters, toasts and the network *)

Definition setRepos (data : nat) : M unit :=
  Async.modify (fun s =>
    mkState (store s) data (isLoading s) (sortBy s) (toasts s)
            (requests s)).

Definition setIsLoading (b : bool) : M unit :=
  Async.modify (fun s =>
    mkState (store s) (repos s) b (sortBy s) (toasts s) (requests s)).

Definition setSortBy (m : SortMode) : M unit :=
  Async.modify (fun s =>
    mkState (store s) (repos s) (isLoading s) m (toasts s) (requests s)).

Definition toast_error (ttl : string) (descr : option string) : M unit :=
  Async.modify (fun s =>
    mkState (store s) (repos s) (isLoading s) (sortBy s)
            (toasts s ++ [mkToast ToastError ttl descr]) (requests s)).

Definition fetch (url : string) (net : FetchOutcome (list Repository.t))
  : M Z :=
  Async.modify (fun s =>
    mkState (store s) (repos s) (isLoading s) (sortBy s) (toasts s)
            (requests s ++ [url])) ;;
  match net with
  | NetworkFailure => Async.throw
  | Responded status _ => Async.ret status
  end.

(** [await response.json()]: the parsed array is a new object. *)
Definition json (net : FetchOutcome (list Repository.t)) : M nat :=
  match net with
  | Responded _ (Some data) => alloc data
  | _ => Async.throw
  end.

(** [fetchRepositories] (lines 60-82); [username] is the prop of the
    component. *)
Definition fetchRepositories (username : string)
    (net : FetchOutcome (list Repository.t)) : M unit :=
  setIsLoading true ;;
  Async.tryCatchFinally
    (status <- fetch ("https://api.github.com/users/" +:+ username
                      +:+ "/repos?sort=updated&per_page=30") net ;;
     if negb (ok status) then
       toast_error "Failed to fetch repositories" None ;;
       setIsLoading false ;;
       Async.return_
     else
       data <- json net ;;
       setRepos data)
    (toast_error "Network error" (Some "Could not load repositories"))
    (setIsLoading false).

Section Presenter.

Variable Date_parse : string -> JS.timeValue.
Variable localeCompare : string -> string -> Z.

(** The comparator of [sortedRepos] (lines 84-94). *)
Definition comparefn (sortBy : SortMode) (a b : Repository.t)
  : option Z :=
  match sortBy with
  | stars =>
      Some (Repository.stargazers_count b - Repository.stargazers_count a)
  | name =>
      Some (localeCompare (Repository.name a) (Repository.name b))
  | updated =>
      JS.sub (Date_parse (Repository.updated_at b))
             (Date_parse (Repository.updated_at a))
  end.

(** [sortedRepos] (line 84): [[...repos].sort(...)], evaluated at every
    render. *)
Definition sortedRepos : M nat :=
  s <- Async.get ;;
  copy <- spread (repos s) ;;
  Array_sort copy (comparefn (sortBy s)).

(** The sequence [sortedRepos] holds, as a function of the sequence
    [repos] holds. *)
Definition sortedRepos_of (sortBy : SortMode) (l : list Repository.t)
  : list Repository.t :=
  JS.sort (comparefn sortBy) l.

(** [formatDate] (lines 96-107); [now] is the time value of
    [new Date()]. *)
Definition formatDate (now : Z) (dateString : string) : string :=
  let date := Date_parse dateString in
  match JS.div (JS.sub (Some now) date) msPerDay with
  | None =>
      (* every comparison with NaN is false *)
      "Updated NaN years ago"
  | Some q =>
      let diffInDays := JS.Math_floor q in
      if diffInDays =? 0 then "Updated today"
      else if diffInDays =? 1 then "Updated yesterday"
      else if diffInDays <? 7
      then "Updated " +:+ JS.toString diffInDays +:+ " days ago"
      else if diffInDays <? 30
      then "Updated "
           +:+ JS.toString (JS.Math_floor (inject_Z diffInDays / 7))
           +:+ " weeks ago"
      else if diffInDays <? 365
      then "Updated "
           +:+ JS.toString (JS.Math_floor (inject_Z diffInDays / 30))
           +:+ " months ago"
      else "Updated "
           +:+ JS.toString (JS.Math_floor (inject_Z diffInDays / 365))
           +:+ " years ago"
  end.

(** The render of the component: the order of the cards is the content
    of [sortedRepos]. *)
Definition render : M (list Repository.t) :=
  sorted <- sortedRepos ;;
  s <- Async.get ;;
  Async.ret (contents s sorted).

(** [useEffect(() => { if (username) fetchRepositories() }, [username])]:
    after a render the effect runs when [username] differs from its
    value at the previous render ([None] at mount). *)
Definition useEffect_username (previous : option string)
    (username : string) (net : FetchOutcome (list Repository.t))
  : M unit :=
  if decide (previous = Some username) then Async.ret tt
  else if String.eqb username EmptyString then Async.ret tt
  else fetchRepositories username net.

(** A click on one of the three sort buttons: [setSortBy(mode)], then
    the component renders again with the same [username]. *)
Definition onClick_sort (mode : SortMode) (username : string)
    (net : FetchOutcome (list Repository.t)) : M (list Repository.t) :=
  setSortBy mode ;;
  cards <- render ;;
  useEffect_username (Some username) username net ;;
  Async.ret cards.

End Presenter.

End RepositoryList.

(** * Vocabulary of the specification *)

(** The account is strictly older than 365 days at the instant [now]. *)
Definition olderThan365Days (Date_parse : string -> JS.timeValue)
    (now : Z) (user : UserData) : Prop :=
  exists t, Date_parse (createdAt user) = Some t /\ 365 * msPerDay < now - t.

Section SortVocabulary.

Context {A : Type} (comparefn : A -> A -> option Z) (P : A -> Prop).

Local Abbreviation cmp := (JS.sortCompare comparefn).

(** A consistent comparator (ECMAScript, Array.prototype.sort) on the
    values that satisfy [P]. *)
Record Consistent : Prop := {
  cc_refl : forall a, P a -> cmp a a = 0;
  cc_sym : forall a b, P a -> P b -> cmp a b = 0 -> cmp b a = 0;
  cc_eq_trans : forall a b c, P a -> P b -> P c ->
    cmp a b = 0 -> cmp b c = 0 -> cmp a c = 0;
  cc_lt_trans : forall a b c, P a -> P b -> P c ->
    cmp a b < 0 -> cmp b c < 0 -> cmp a c < 0;
  cc_gt_trans : forall a b c, P a -> P b -> P c ->
    cmp a b > 0 -> cmp b c > 0 -> cmp a c > 0
}.

(** [x] may stand before [y]. *)
Definition sortLe (x y : A) : Prop := cmp x y <= 0.

(** [x] and [y] are a tie. *)
Definition tied (x y : A) : bool := cmp x y =? 0.

End SortVocabulary.

Arguments cc_refl {A comparefn P} _.
Arguments cc_sym {A comparefn P} _.
Arguments cc_eq_trans {A comparefn P} _.
Arguments cc_lt_trans {A comparefn P} _.
Arguments cc_gt_trans {A comparefn P} _.

(** The progress rule in the words of the specification: a table of
    per-id denominators, a ratio in percent clamped to 99, a default. *)
Inductive Metric := PublicRepos | Followers.

Definition metric (m : Metric) (profile : UserData) : Z :=
  match m with
  | PublicRepos => publicRepos profile
  | Followers => followers profile
  end.

Definition denominators : list (string * (Metric * Z)) :=
  [ ("pull-shark", (PublicRepos, 2));
    ("starstruck", (Followers, 16));
    ("open-sourcerer", (PublicRepos, 3));
    ("pair-extraordinaire", (Followers, 10)) ].

Fixpoint assoc {V} (k : string) (l : list (string * V)) : option V :=
  match l with
  | [] => None
  | (k', v) :: l' => if String.eqb k k' then Some v else assoc k l'
  end.

Definition clampTo99 (q : Q) : Q := if Qlt_le_dec 99 q then 99%Q else q.

Definition progressOf (id : string) (profile : UserData)
    (unlockedSet : list string) : Q :=
  if decide (id ∈ unlockedSet) then 100%Q
  else
    match assoc id denominators with
    | Some (m, d) =>
        clampTo99 (inject_Z (metric m profile) / inject_Z d * 100)
    | None => if decide (0 < publicRepos profile) then 25%Q else 0%Q
    end.

(** A number that is an integer. *)
Definition isInteger (q : Q) : Prop := exists z : Z, (q == inject_Z z)%Q.

(** The forms of a relative date, and the rule that chooses one from the
    number of whole days elapsed. *)
Inductive RelativeDate :=
| Today
| Yesterday
| DaysAgo (n : Z)
| WeeksAgo (n : Z)
| MonthsAgo (n : Z)
| YearsAgo (n : Z).

Definition relativeDate (days : Z) : RelativeDate :=
  if decide (days = 0) then Today
  else if decide (days = 1) then Yesterday
  else if decide (days < 7) then DaysAgo days
  else if decide (days < 30) then WeeksAgo (days / 7)
  else if decide (days < 365) then MonthsAgo (days / 30)
  else YearsAgo (days / 365).

(** The text of a form. *)
Definition label (r : RelativeDate) : string :=
  match r with
  | Today => "Updated today"
  | Yesterday => "Updated yesterday"
  | DaysAgo n => "Updated " +:+ JS.toString n +:+ " days ago"
  | WeeksAgo n => "Updated " +:+ JS.toString n +:+ " weeks ago"
  | MonthsAgo n => "Updated " +:+ JS.toString n +:+ " months ago"
  | YearsAgo n => "Updated " +:+ JS.toString n +:+ " years ago"
  end.

(** Whole days from the instant [t] to the instant [now] (both in
    milliseconds), rounded down. *)
Definition daysSince (now t : Z) : Z := (now - t) / msPerDay.

(** The string contains a space. *)
Fixpoint has_space (s : string) : bool :=
  match s with
  | EmptyString => false
  | String c s' => Ascii.eqb c " " || has_space s'
  end.

(** The fetch fails: the transport fails, the status is not a success, or
    no body can be read from the response. *)
Definition failed {Body} (net : FetchOutcome Body) : bool :=
  match net with
  | NetworkFailure => true
  | Responded status body =>
      negb (ok status)
      || match body with Some _ => false | None => true end
  end.

(** The error kinds of the profile fetcher and the message shown for
    each. *)
Inductive FetchError := NotFound | ServerError | NetworkError.

Definition userMessage (username : string) (e : FetchError) : Toast :=
  match e with
  | NotFound =>
      mkToast ToastError "User not found"
        (Some ("The username " +:+ JS.dquote +:+ username +:+ JS.dquote
               +:+ " does not exist on GitHub."))
  | ServerError =>
      mkToast ToastError "Failed to fetch user data"
        (Some "Please try again later.")
  | NetworkError =>
      mkToast ToastError "Network error"
        (Some "Could not connect to GitHub API.")
  end.

(** The order of each mode, on repositories. *)
Section PresenterVocabulary.

Variable Date_parse : string -> JS.timeValue.
Variable localeCompare : string -> string -> Z.

(** The repository can be ranked in the mode: for [updated] its
    timestamp has to be a date. *)
Definition sortable (mode : RepositoryList.SortMode) (r : Repository.t)
  : Prop :=
  match mode with
  | RepositoryList.updated =>
      is_Some (Date_parse (Repository.updated_at r))
  | _ => True
  end.

(** [a] may stand before [b]: descending timestamps, descending star
    counts, ascending names. *)
Definition ordered (mode : RepositoryList.SortMode) (a b : Repository.t)
  : Prop :=
  match mode with
  | RepositoryList.updated =>
      match Date_parse (Repository.updated_at a),
            Date_parse (Repository.updated_at b) with
      | Some ta, Some tb => tb <= ta
      | _, _ => False
      end
  | RepositoryList.stars =>
      Repository.stargazers_count b <= Repository.stargazers_count a
  | RepositoryList.name =>
      localeCompare (Repository.name a) (Repository.name b) <= 0
  end.

(** [a] and [b] are a tie of the mode. *)
Definition sameRank (mode : RepositoryList.SortMode) (a b : Repository.t)
  : Prop :=
  ordered mode a b /\ ordered mode b a.

#[global] Instance ordered_dec mode a b : Decision (ordered mode a b).
Proof.
  unfold ordered. destruct mode; try apply _.
  destruct (Date_parse (Repository.updated_at a)),
    (Date_parse (Repository.updated_at b)); apply _.
Defined.

#[global] Instance sameRank_dec mode a b : Decision (sameRank mode a b).
Proof. unfold sameRank. apply _. Defined.

(** [localeCompare] is a consistent comparator of strings. *)
Definition localeCompare_consistent : Prop :=
  Consistent (fun a b : string => Some (localeCompare a b))
             (fun _ => True).

End PresenterVocabulary.

(** An instance of [localeCompare]: the comparison of the strings code
    unit by code unit. *)
Definition codeUnitCompare (a b : string) : Z :=
  match String.compare a b with
  | Eq => 0
  | Lt => -1
  | Gt => 1
  end.

(** ** Sample data *)

Module Sample.

(** An instant: 2023-11-14T22:13:20Z. *)
Definition now : Z := 1700000000000.

Definition octocat : UserData :=
  mkUserData "octocat" "https://avatars.example/octocat" 10 20 9
             "2021-11-14T22:13:20Z".

Definition newcomer : UserData :=
  mkUserData "newcomer" "https://avatars.example/newcomer" 1 3 5
             "2023-06-01T00:00:00Z".

Definition repo (id : Z) (name : string) (stars : Z) (updated_at : string)
  : Repository.t :=
  Repository.mk id name ("octocat/" +:+ name) None
    ("https://github.example/octocat/" +:+ name) stars 0 stars None
    updated_at [] false.

Definition spoon := repo 1 "Spoon-Knife" 12 "2023-10-01T08:00:00Z".
Definition hello := repo 2 "Hello-World" 30 "2023-11-07T22:13:20Z".
Definition boys := repo 3 "boysenberry" 12 "2022-01-05T10:30:00Z".
Definition twin := repo 4 "Hello-World" 7 "2023-10-01T08:00:00Z".

Definition repositories : list Repository.t := [spoon; hello; boys; twin].

Definition app : App.State :=
  App.mkState (Some octocat) (Some ["yolo"; "quickdraw"]) false [] [].

Definition repositoryList : RepositoryList.State :=
  RepositoryList.mkState {[ 0%nat := repositories ]} 0%nat false
    RepositoryList.updated [] [].

End Sample.

(** * Further parts of the two components *)

(** ** JavaScript values and calls *)

Module JSX.

(** [a?.includes(x)]: [None] is [undefined], the value when [a] is
    [undefined]. *)
Definition optional_includes (a : option (list string)) (x : string)
  : option bool :=
  match a with
  | Some l => Some (JS.includes l x)
  | None => None
  end.

(** The truthiness of a boolean or [undefined]. *)
Definition truthy (v : option bool) : bool :=
  match v with
  | Some b => b
  | None => false
  end.


(** A call [f(...)] of an async function that is not awaited, with the
    callee run to its end: a [return] of the callee ends the callee only,
    and a rejection of its promise is not thrown into the caller. *)
Definition call_unawaited {S} (m : Async.M S unit) : Async.M S unit :=
  fun s => (Async.Normal tt, snd (m s)).

End JSX.

(** ** Component [App]: the mount effect, the tabs and the counters *)

Module AppView.

(** What [await window.spark.user()] yields: the promise rejects, or it
    resolves to a user ([None] is a null user) of which [login] is read. *)
Inductive SparkUser :=
| SparkRejected
| SparkResolved (user : option string).

(** The effect that runs once at mount (App.tsx, lines 22-37);
    [console.error] does not touch the state. *)
Definition loadCurrentUser (Date_parse : string -> JS.timeValue) (now : Z)
    (spark : SparkUser) (net : FetchOutcome ApiUser) : App.M unit :=
  Async.tryCatchFinally
    (user <- (match spark with
              | SparkRejected => Async.throw
              | SparkResolved user => Async.ret user
              end) ;;
     match user with
     | Some login =>
         if negb (String.eqb login EmptyString)
         then JSX.call_unawaited (App.fetchUserData Date_parse now login net)
         else Async.ret tt
     | None => Async.ret tt
     end)
    (Async.ret tt)
    (Async.ret tt).

Definition useEffect_mount (Date_parse : string -> JS.timeValue) (now : Z)
    (spark : SparkUser) (net : FetchOutcome ApiUser) : App.M unit :=
  s <- Async.get ;;
  match App.userData s with
  | None => JSX.call_unawaited (loadCurrentUser Date_parse now spark net)
  | Some _ => Async.ret tt
  end.

Section Tabs.

(** The catalog [achievements] of [@/lib/achievements]. *)
Variable achievements : list Achievement.t.

(** [filteredAchievements] (lines 134-139). *)
Definition filteredAchievements (activeTab : string)
    (unlockedAchievements : option (list string)) : list Achievement.t :=
  List.filter
    (fun achievement =>
       if String.eqb activeTab "all" then true
       else if String.eqb activeTab "unlocked"
       then JSX.truthy
              (JSX.optional_includes unlockedAchievements
                 (Achievement.id achievement))
       else if String.eqb activeTab "locked"
       then negb
              (JSX.truthy
                 (JSX.optional_includes unlockedAchievements
                    (Achievement.id achievement)))
       else true)
    achievements.

(** [unlockedCount] (line 141). *)
Definition unlockedCount (unlockedAchievements : option (list string))
  : Z :=
  Z.of_nat
    (length
       (List.filter
          (fun a =>
             JSX.truthy
               (JSX.optional_includes unlockedAchievements
                  (Achievement.id a)))
          achievements)).

(** The number in the label of the tab "Locked" (line 191):
    [achievements.length - unlockedCount]. *)
Definition lockedLabel (unlockedAchievements : option (list string)) : Z :=
  Z.of_nat (length achievements) - unlockedCount unlockedAchievements.

End Tabs.

(** The prop [unlocked] of a card (line 214):
    [unlockedAchievements?.includes(achievement.id) || false]. *)
Definition cardUnlocked (unlockedAchievements : option (list string))
    (achievement : Achievement.t) : bool :=
  JSX.truthy
    (JSX.optional_includes unlockedAchievements
       (Achievement.id achievement))
  || false.

End AppView.

(** ** Component [RepositoryList]: what is rendered *)

Module RepositoryView.

(** The three returns of the component (lines 109-134 and 136-254). *)
Inductive View :=
| Skeleton
| EmptyNotice
| ListView (heading : string) (cards : list Repository.t).

(** The text under the title (lines 141-143). *)
Definition heading (n : Z) : string :=
  JS.toString n +:+ " public "
  +:+ (if n =? 1 then "repository" else "repositories").

(** The body of the component from line 84 on: [sortedRepos] is computed
    first, then one of the three views is returned. *)
Definition view (Date_parse : string -> JS.timeValue)
    (localeCompare : string -> string -> Z) : RepositoryList.M View :=
  sorted <- RepositoryList.sortedRepos Date_parse localeCompare ;;
  s <- Async.get ;;
  if RepositoryList.isLoading s then Async.ret Skeleton
  else
    let n :=
      Z.of_nat (length (RepositoryList.contents s (RepositoryList.repos s)))
    in
    if n =? 0 then Async.ret EmptyNotice
    else Async.ret (ListView (heading n) (RepositoryList.contents s sorted)).


End RepositoryView.

(** A relative date as the formatter shows it for an instant that is not
    in the future: the number of a form is in the range of its unit. *)
Definition inUnitRange (r : RelativeDate) : Prop :=
  match r with
  | Today | Yesterday => True
  | DaysAgo n => 2 <= n <= 6
  | WeeksAgo n => 1 <= n <= 4
  | MonthsAgo n => 1 <= n <= 12
  | YearsAgo n => 1 <= n
  end.

(** The six ids the evaluator can unlock, in the order it pushes them. *)
Definition unlockableIds : list string :=
  ["yolo"; "quickdraw"; "open-sourcerer"; "heart-on-sleeve";
   "pair-extraordinaire"; "pull-shark"].

(** A catalog for the examples: ids of achievements, the six of the
    evaluator among them. *)
Definition sampleCatalog : list Achievement.t :=
  map Achievement.mk
    ["pull-shark"; "starstruck"; "pair-extraordinaire"; "galaxy-brain";
     "yolo"; "quickdraw"; "public-sponsor"; "heart-on-sleeve";
     "open-sourcerer"].

(** The profile of [Sample.octocat] when it had one repository and three
    followers. *)
Definition octocatEarlier : UserData :=
  mkUserData "octocat" "https://avatars.example/octocat" 1 3 9
             "2021-11-14T22:13:20Z".

(** * Properties *)

(** ** Numbers *)

Lemma msPerDay_value : msPerDay = 86400000.
Proof. reflexivity. Qed.

(** [x / msPerDay > 365] on exact numbers is a comparison of milliseconds. *)
Lemma gt_365_days (x : Z) :
  JS.gt (JS.div (Some x) msPerDay) 365 = true <-> 365 * msPerDay < x.
Proof.
  rewrite msPerDay_value. unfold JS.gt, JS.div.
  destruct (Qlt_le_dec _ _) as [H | H];
    unfold Qlt, Qle, Qdiv, Qmult, Qinv, inject_Z in H; simpl in H;
    split; intros; try discriminate; try reflexivity; lia.
Qed.

Lemma gt_NaN (b : Q) : JS.gt None b = false.
Proof. reflexivity. Qed.

(** ** Achievement evaluator *)

Section EvaluatorProofs.

Variable Date_parse : string -> JS.timeValue.

Lemma pull_shark_condition now user :
  JS.gt (JS.div (JS.sub (Some now) (Date_parse (createdAt user))) msPerDay)
        365 = true
  <-> olderThan365Days Date_parse now user.
Proof.
  unfold olderThan365Days.
  destruct (Date_parse (createdAt user)) as [t|]; simpl JS.sub.
  - rewrite gt_365_days. split.
    + intros H. exists t. split; [reflexivity | exact H].
    + intros (t' & E & H). injection E as <-. exact H.
  - simpl. split; [discriminate | intros (t' & E & _); discriminate].
Qed.

(** The array is the concatenation of the four groups of the rule table,
    each present when its condition holds. *)
Lemma unlocked_groups now user :
  App.simulateUnlockedAchievements_unlocked Date_parse now user =
    (if publicRepos user >=? 2 then ["yolo"; "quickdraw"] else [])
    ++ (if publicRepos user >=? 5
        then ["open-sourcerer"; "heart-on-sleeve"] else [])
    ++ (if followers user >=? 10 then ["pair-extraordinaire"] else [])
    ++ (if JS.gt (JS.div (JS.sub (Some now)
                                  (Date_parse (createdAt user))) msPerDay)
                 365
        then ["pull-shark"] else []).
Proof.
  unfold App.simulateUnlockedAchievements_unlocked, JS.push.
  destruct (publicRepos user >=? 2), (publicRepos user >=? 5),
    (followers user >=? 10), (JS.gt _ _); reflexivity.
Qed.

Lemma elem_of_group (c : bool) (l : list string) (a : string) :
  a ∈ (if c then l else []) <-> a ∈ l /\ c = true.
Proof.
  destruct c; split.
  - intros H; split; [exact H | reflexivity].
  - intros [H _]; exact H.
  - intros H; inversion H.
  - intros [_ H]; discriminate.
Qed.

Lemma unlocked_elem_of now user a :
  a ∈ App.simulateUnlockedAchievements_unlocked Date_parse now user <->
    ((a = "yolo" \/ a = "quickdraw") /\ 2 <= publicRepos user)
    \/ ((a = "open-sourcerer" \/ a = "heart-on-sleeve")
        /\ 5 <= publicRepos user)
    \/ (a = "pair-extraordinaire" /\ 10 <= followers user)
    \/ (a = "pull-shark" /\ olderThan365Days Date_parse now user).
Proof.
  rewrite unlocked_groups, !elem_of_app, !elem_of_group,
    pull_shark_condition, !elem_of_cons, !elem_of_nil, !Z.geb_le.
  tauto.
Qed.

Lemma unlocked_NoDup now user :
  NoDup (App.simulateUnlockedAchievements_unlocked Date_parse now user).
Proof.
  rewrite unlocked_groups.
  destruct (publicRepos user >=? 2), (publicRepos user >=? 5),
    (followers user >=? 10), (JS.gt _ _);
    apply (bool_decide_unpack _); vm_compute; reflexivity.
Qed.

(** C1. The evaluator returns exactly the set of the rule table: "yolo"
    and "quickdraw" iff publicRepos >= 2; "open-sourcerer" and
    "heart-on-sleeve" iff publicRepos >= 5; "pair-extraordinaire" iff
    followers >= 10; "pull-shark" iff the account is strictly older than
    365 days; no other id, and no id twice.  The array is what
    [simulateUnlockedAchievements] stores as the unlocked set.  In
    particular the result is empty for followers < 10, publicRepos < 2
    and an account age of at most 365 days. *)
Theorem evaluate_rule_table (now : Z) (user : UserData) :
  let unlocked :=
    App.simulateUnlockedAchievements_unlocked Date_parse now user in
  (forall a : string,
      a ∈ unlocked <->
        ((a = "yolo" \/ a = "quickdraw") /\ 2 <= publicRepos user)
        \/ ((a = "open-sourcerer" \/ a = "heart-on-sleeve")
            /\ 5 <= publicRepos user)
        \/ (a = "pair-extraordinaire" /\ 10 <= followers user)
        \/ (a = "pull-shark" /\ olderThan365Days Date_parse now user))
  /\ NoDup unlocked
  /\ (forall s : App.State,
        App.unlockedAchievements
          (Async.exec
             (App.simulateUnlockedAchievements Date_parse now user) s)
        = Some unlocked)
  /\ (forall t : Z,
        Date_parse (createdAt user) = Some t ->
        followers user < 10 -> publicRepos user < 2 ->
        now - t <= 365 * msPerDay ->
        unlocked = []).
Proof.
  intros unlocked. split; [| split; [| split]].
  - intros a. apply unlocked_elem_of.
  - apply unlocked_NoDup.
  - intros s. reflexivity.
  - intros t Ht Hf Hp Hage.
    destruct unlocked as [| a l] eqn:E; [reflexivity | exfalso].
    assert (Ha : a ∈ unlocked) by (subst unlocked; rewrite E; left).
    apply unlocked_elem_of in Ha.
    destruct Ha as [[_ H] | [[_ H] | [[_ H] | [_ (t' & Ht' & H)]]]];
      try lia.
    rewrite Ht in Ht'. injection Ht' as <-. lia.
Qed.

End EvaluatorProofs.

(** ** Sorting with a consistent comparator *)

Section SortTheory.

Context {A : Type} (comparefn : A -> A -> option Z) (P : A -> Prop).

Local Abbreviation cmp := (JS.sortCompare comparefn).
Local Abbreviation Consistent := (Consistent comparefn P).
Local Abbreviation sortLe := (sortLe comparefn).
Local Abbreviation tied := (tied comparefn).

Lemma sort_insert_Permutation x l :
  Permutation (JS.sort_insert comparefn x l) (x :: l).
Proof.
  induction l as [| y l IH]; simpl; [reflexivity |].
  destruct (cmp x y <=? 0); [reflexivity |].
  rewrite IH. apply perm_swap.
Qed.

Lemma sort_Permutation l : Permutation (JS.sort comparefn l) l.
Proof.
  induction l as [| x l IH]; simpl; [reflexivity |].
  rewrite sort_insert_Permutation. now constructor.
Qed.

Lemma sort_Forall (Q : A -> Prop) l :
  Forall Q l -> Forall Q (JS.sort comparefn l).
Proof.
  intros H. eapply Permutation_Forall; [| exact H].
  symmetry. apply sort_Permutation.
Qed.

(** An already ordered array is left as it is. *)
Lemma sort_sorted_id l :
  StronglySorted sortLe l -> JS.sort comparefn l = l.
Proof.
  induction 1 as [| x l Hs IH Hx]; simpl; [reflexivity |].
  rewrite IH. destruct l as [| y l]; simpl; [reflexivity |].
  inversion Hx as [| ? ? Hxy _]; subst. unfold sortLe in Hxy.
  apply Z.leb_le in Hxy. now rewrite Hxy.
Qed.

Hypothesis consistent : Consistent.

Lemma cmp_gt_lt x y : P x -> P y -> cmp x y > 0 -> cmp y x < 0.
Proof.
  intros Hx Hy H.
  destruct (Z.lt_trichotomy (cmp y x) 0) as [L | [E | G]]; [exact L | |].
  - apply (cc_sym consistent) in E; try assumption. lia.
  - pose proof (cc_gt_trans consistent x y x Hx Hy Hx H ltac:(lia)) as C.
    rewrite (cc_refl consistent x Hx) in C. lia.
Qed.

Lemma cmp_lt_gt x y : P x -> P y -> cmp x y < 0 -> cmp y x > 0.
Proof.
  intros Hx Hy H.
  destruct (Z.lt_trichotomy (cmp y x) 0) as [L | [E | G]]; [| | lia].
  - pose proof (cc_lt_trans consistent x y x Hx Hy Hx H L) as C.
    rewrite (cc_refl consistent x Hx) in C. lia.
  - apply (cc_sym consistent) in E; try assumption. lia.
Qed.

Lemma sortLe_total x y : P x -> P y -> ~ sortLe x y -> sortLe y x.
Proof.
  unfold sortLe. intros Hx Hy H.
  pose proof (cmp_gt_lt x y Hx Hy). lia.
Qed.

Lemma sortLe_antisym x y :
  P x -> P y -> sortLe x y -> sortLe y x -> cmp x y = 0.
Proof.
  unfold sortLe. intros Hx Hy H1 H2.
  destruct (Z.eq_dec (cmp x y) 0) as [E | N]; [exact E |].
  pose proof (cmp_lt_gt x y Hx Hy). lia.
Qed.

Lemma sortLe_trans x y z :
  P x -> P y -> P z -> sortLe x y -> sortLe y z -> sortLe x z.
Proof.
  unfold sortLe. intros Hx Hy Hz H1 H2.
  destruct (Z.lt_trichotomy (cmp x z) 0) as [L | [E | G]]; [lia | lia |].
  exfalso. apply Z.lt_gt in G.
  pose proof (cmp_gt_lt x z Hx Hz G) as Hzx.
  destruct (Z.eq_dec (cmp x y) 0) as [Exy | Nxy].
  - destruct (Z.eq_dec (cmp y z) 0) as [Eyz | Nyz].
    + pose proof (cc_eq_trans consistent x y z Hx Hy Hz Exy Eyz). lia.
    + pose proof (cc_lt_trans consistent y z x Hy Hz Hx ltac:(lia) Hzx).
      pose proof (cc_sym consistent x y Hx Hy Exy). lia.
  - pose proof (cc_lt_trans consistent z x y Hz Hx Hy Hzx ltac:(lia)) as Hzy.
    pose proof (cmp_lt_gt z y Hz Hy Hzy). lia.
Qed.

Lemma tied_euclid k x y :
  P k -> P x -> P y -> tied k x = true -> tied k y = true -> cmp x y = 0.
Proof.
  unfold tied. intros Hk Hx Hy H1 H2.
  apply Z.eqb_eq in H1, H2.
  apply (cc_eq_trans consistent x k y); try assumption.
  apply (cc_sym consistent); assumption.
Qed.

Lemma sort_insert_sorted x l :
  P x -> Forall P l -> StronglySorted sortLe l ->
  StronglySorted sortLe (JS.sort_insert comparefn x l).
Proof.
  intros Hx HP Hs. induction Hs as [| y l Hs IH Hy]; simpl.
  - repeat constructor.
  - inversion HP as [| ? ? Py Pl]; subst.
    destruct (cmp x y <=? 0) eqn:E.
    + apply Z.leb_le in E. constructor; [now constructor |].
      constructor; [exact E |].
      rewrite Forall_forall in Hy, Pl. apply Forall_forall. intros z Hz.
      apply (sortLe_trans x y z); auto.
    + apply Z.leb_gt in E. constructor; [now apply IH |].
      eapply Permutation_Forall;
        [symmetry; apply sort_insert_Permutation |].
      constructor; [| exact Hy].
      apply sortLe_total; auto. unfold sortLe. lia.
Qed.

Lemma sort_sorted l :
  Forall P l -> StronglySorted sortLe (JS.sort comparefn l).
Proof.
  induction 1 as [| x l Hx Hl IH]; simpl; [constructor |].
  apply sort_insert_sorted; auto. now apply sort_Forall.
Qed.

Lemma sort_insert_tied k x l :
  P k -> P x -> Forall P l ->
  filter (fun y => tied k y = true) (JS.sort_insert comparefn x l)
  = filter (fun y => tied k y = true) (x :: l).
Proof.
  intros Hk Hx. induction 1 as [| y l Hy Hl IH]; simpl; [reflexivity |].
  destruct (cmp x y <=? 0) eqn:E; [reflexivity |].
  apply Z.leb_gt in E.
  rewrite (filter_cons _ y), IH, !filter_cons.
  destruct (decide (tied k y = true)) as [Ty | Ty]; [| reflexivity].
  destruct (decide (tied k x = true)) as [Tx | Tx]; [| reflexivity].
  pose proof (tied_euclid k x y Hk Hx Hy Tx Ty). lia.
Qed.

(** Stability: the elements tied with [k] keep the order of the input. *)
Lemma sort_stable k l :
  P k -> Forall P l ->
  filter (fun y => tied k y = true) (JS.sort comparefn l)
  = filter (fun y => tied k y = true) l.
Proof.
  intros Hk. induction 1 as [| x l Hx Hl IH]; simpl; [reflexivity |].
  rewrite sort_insert_tied; auto using sort_Forall.
  rewrite !filter_cons, IH. reflexivity.
Qed.

Lemma sort_idempotent l :
  Forall P l ->
  JS.sort comparefn (JS.sort comparefn l) = JS.sort comparefn l.
Proof. intros H. apply sort_sorted_id, sort_sorted, H. Qed.

(** Two ordered rearrangements of the same elements with the same order
    inside every class of ties are equal. *)
Lemma stable_sorted_eq l1 : forall l2,
  Forall P l1 ->
  Permutation l1 l2 ->
  StronglySorted sortLe l1 -> StronglySorted sortLe l2 ->
  (forall k, P k ->
     filter (fun y => tied k y = true) l1
     = filter (fun y => tied k y = true) l2) ->
  l1 = l2.
Proof.
  induction l1 as [| x l1 IH]; intros l2 HP Hperm S1 S2 Hst.
  - apply Permutation_nil in Hperm. now subst.
  - destruct l2 as [| y l2].
    { symmetry in Hperm. apply Permutation_nil in Hperm. discriminate. }
    inversion HP as [| ? ? Px Pl1]; subst.
    assert (Py : P y).
    { rewrite Forall_forall in HP. apply HP. rewrite Hperm. left. }
    inversion S1 as [| ? ? S1' Hx]; subst.
    inversion S2 as [| ? ? S2' Hy]; subst.
    assert (Lxy : sortLe x y).
    { assert (Hin : y ∈ x :: l1) by (rewrite Hperm; left).
      apply elem_of_cons in Hin as [E | Hin].
      - subst. unfold sortLe. rewrite (cc_refl consistent); [lia | auto].
      - rewrite Forall_forall in Hx. now apply Hx. }
    assert (Lyx : sortLe y x).
    { assert (Hin : x ∈ y :: l2) by (rewrite <- Hperm; left).
      apply elem_of_cons in Hin as [E | Hin].
      - subst. unfold sortLe. rewrite (cc_refl consistent); [lia | auto].
      - rewrite Forall_forall in Hy. now apply Hy. }
    pose proof (sortLe_antisym x y Px Py Lxy Lyx) as Exy.
    assert (x = y) as <-.
    { pose proof (Hst x Px) as Hx0. rewrite !filter_cons in Hx0.
      destruct (decide (tied x x = true)) as [_ | N].
      - destruct (decide (tied x y = true)) as [_ | N];
          [congruence |].
        exfalso. apply N. unfold tied. now apply Z.eqb_eq.
      - exfalso. apply N. unfold tied.
        apply Z.eqb_eq, (cc_refl consistent x Px). }
    f_equal. apply IH; auto.
    + now apply Permutation_cons_inv in Hperm.
    + intros k Hk. specialize (Hst k Hk). rewrite !filter_cons in Hst.
      destruct (decide (tied k x = true)); congruence.
Qed.

(** The result of a stable sort with a consistent comparator is unique:
    it is the list [JS.sort] computes. *)
Lemma stable_sorted_unique l l' :
  Forall P l ->
  Permutation l' l ->
  StronglySorted sortLe l' ->
  (forall k, P k ->
     filter (fun y => tied k y = true) l'
     = filter (fun y => tied k y = true) l) ->
  l' = JS.sort comparefn l.
Proof.
  intros HP Hperm Hs Hst. apply stable_sorted_eq; auto.
  - eapply Permutation_Forall; [symmetry; exact Hperm | exact HP].
  - rewrite Hperm. symmetry. apply sort_Permutation.
  - now apply sort_sorted.
  - intros k Hk. rewrite Hst, sort_stable; auto.
Qed.

End SortTheory.

(** ** Progress of an achievement *)

Lemma includes_elem_of (l : list string) (x : string) :
  JS.includes l x = true <-> x ∈ l.
Proof.
  unfold JS.includes. rewrite existsb_exists. split.
  - intros (y & Hy & E). apply String.eqb_eq in E. subst.
    now apply list_elem_of_In.
  - intros H. exists x. split; [now apply list_elem_of_In |].
    apply String.eqb_refl.
Qed.

Lemma Math_min_clampTo99 (q : Q) : JS.Math_min q 99 = clampTo99 q.
Proof.
  unfold JS.Math_min, Qmin, GenericMinMax.gmin, clampTo99.
  destruct (Qlt_le_dec 99 q) as [H | H].
  - apply Qgt_alt in H. now rewrite H.
  - pose proof (proj1 (Qle_alt _ _) H) as N.
    destruct (q ?= 99)%Q; congruence.
Qed.

Lemma percent_nonneg (n : Z) (d : positive) :
  0 <= n -> (0 <= inject_Z n / inject_Z (Zpos d) * 100)%Q.
Proof.
  intros H. unfold Qle, Qdiv, Qmult, Qinv, inject_Z. simpl. lia.
Qed.

Lemma Math_min_99_range (q : Q) :
  (0 <= q)%Q -> (0 <= JS.Math_min q 99 <= 100)%Q.
Proof.
  intros H. unfold JS.Math_min. split.
  - apply Q.min_glb; [exact H | discriminate].
  - apply Qle_trans with 99%Q; [apply Q.le_min_r | discriminate].
Qed.

(** C2. The progress is 100 for an unlocked id; otherwise it is the ratio
    of the table in percent, clamped to at most 99 (publicRepos/2 for
    "pull-shark", followers/16 for "starstruck", publicRepos/3 for
    "open-sourcerer", followers/10 for "pair-extraordinaire"), and 25 or 0
    for every other id according to publicRepos > 0.  For "pull-shark" and
    an empty unlocked set it is 50 with publicRepos = 1 and 99 with
    publicRepos = 4. *)
Theorem getAchievementProgress_progressOf
    (achievement : Achievement.t) (profile : UserData)
    (unlockedSet : list string) :
  App.getAchievementProgress (Some profile) (Some unlockedSet) achievement
  = progressOf (Achievement.id achievement) profile unlockedSet
  /\ (forall l a f g c,
        App.getAchievementProgress (Some (mkUserData l a 1 f g c)) (Some [])
          (Achievement.mk "pull-shark") == 50)%Q
  /\ (forall l a f g c,
        App.getAchievementProgress (Some (mkUserData l a 4 f g c)) (Some [])
          (Achievement.mk "pull-shark") == 99
        /\ inject_Z 4 / 2 * 100 == 200)%Q.
Proof.
  split; [| split; intros; vm_compute; tauto].
  unfold App.getAchievementProgress, progressOf.
  destruct (JS.includes unlockedSet (Achievement.id achievement)) eqn:I.
  - apply includes_elem_of in I. now rewrite decide_True.
  - rewrite decide_False
      by (rewrite <- includes_elem_of; congruence).
    rewrite !Math_min_clampTo99. simpl.
    repeat (destruct (String.eqb (Achievement.id achievement) _);
            [reflexivity |]).
    destruct (Z.gtb_spec (publicRepos profile) 0).
    + now rewrite decide_True.
    + now rewrite decide_False by lia.
Qed.

(** C3, as the specification states it, fails: with one follower the
    progress of "starstruck" is 6.25, which is not an integer. *)
Lemma progress_not_always_integer :
  let p :=
    App.getAchievementProgress
      (Some (mkUserData "octocat" "https://avatars.example/1" 8 1 9
                        "2011-01-25T18:44:36Z"))
      (Some []) (Achievement.mk "starstruck") in
  (p == 25 # 4)%Q /\ ~ isInteger p.
Proof.
  intros p. assert (E : (p == 25 # 4)%Q) by reflexivity.
  split; [exact E |].
  intros [z Hz]. rewrite E in Hz.
  unfold Qeq, inject_Z in Hz. simpl in Hz. lia.
Qed.

(** C3 (amended). For a profile with non-negative counts the progress is a
    number of the interval [0, 100], possibly fractional; it is 50 for
    "starstruck" with 8 followers and an empty unlocked set. *)
Theorem getAchievementProgress_range
    (achievement : Achievement.t) (profile : UserData)
    (unlockedSet : list string) :
  0 <= publicRepos profile -> 0 <= followers profile ->
  (0 <= App.getAchievementProgress (Some profile) (Some unlockedSet)
          achievement <= 100)%Q
  /\ (forall l a r g c,
        App.getAchievementProgress (Some (mkUserData l a r 8 g c)) (Some [])
          (Achievement.mk "starstruck") == 50)%Q.
Proof.
  intros Hr Hf. split; [| intros; reflexivity].
  unfold App.getAchievementProgress.
  destruct (JS.includes _ _); [split; discriminate |].
  repeat (destruct (String.eqb (Achievement.id achievement) _);
          [apply Math_min_99_range, (percent_nonneg _ _); assumption |]).
  destruct (publicRepos profile >? 0); split; discriminate.
Qed.

Lemma getAchievementProgress_range_witness :
  (0 <= App.getAchievementProgress
          (Some (mkUserData "octocat" "https://avatars.example/1" 1 3 9
                            "2011-01-25T18:44:36Z"))
          (Some ["yolo"]) (Achievement.mk "open-sourcerer") <= 100)%Q.
Proof.
  apply (getAchievementProgress_range
           (Achievement.mk "open-sourcerer")
           (mkUserData "octocat" "https://avatars.example/1" 1 3 9
                       "2011-01-25T18:44:36Z")
           ["yolo"]); simpl; lia.
Defined.

(** C10. Without a loaded profile, or without an unlocked list, the
    progress of every achievement is 0, whatever the other slot holds. *)
Theorem getAchievementProgress_not_loaded
    (achievement : Achievement.t) (userData : option UserData)
    (unlockedAchievements : option (list string)) :
  App.getAchievementProgress None unlockedAchievements achievement = 0%Q
  /\ App.getAchievementProgress userData None achievement = 0%Q.
Proof. split; [reflexivity | destruct userData; reflexivity]. Qed.

(** With the same profile and list loaded, the ids of C10 get 100 and 25. *)
Example getAchievementProgress_loaded_contrast :
  let profile := mkUserData "octocat" "https://avatars.example/1" 3 0 0
                            "2011-01-25T18:44:36Z" in
  App.getAchievementProgress (Some profile) (Some ["yolo"])
    (Achievement.mk "yolo") = 100%Q
  /\ App.getAchievementProgress (Some profile) (Some ["yolo"])
       (Achievement.mk "galaxy-brain") = 25%Q
  /\ App.getAchievementProgress None (Some ["yolo"])
       (Achievement.mk "yolo") = 0%Q
  /\ App.getAchievementProgress (Some profile) None
       (Achievement.mk "galaxy-brain") = 0%Q.
Proof. repeat split. Qed.

(** ** Relative dates *)

Lemma Math_floor_div (a : Z) (d : positive) :
  JS.Math_floor (inject_Z a / (Zpos d # 1)) = a / Zpos d.
Proof.
  unfold JS.Math_floor, Qfloor, Qdiv, Qmult, Qinv, inject_Z. simpl.
  now rewrite Z.mul_1_r.
Qed.

Lemma toString_inj (n m : Z) : JS.toString n = JS.toString m -> n = m.
Proof.
  unfold JS.toString. intros H.
  assert (Hnil : forall z, Z.to_int z <> Decimal.Pos Decimal.Nil
                           /\ Z.to_int z <> Decimal.Neg Decimal.Nil).
  { intros [| p | p]; simpl; split; try discriminate;
      intros [= E]; now apply DecimalPos.Unsigned.to_uint_nonnil in E. }
  apply DecimalZ.to_int_inj.
  assert (E : Some (Z.to_int n) = Some (Z.to_int m)).
  { rewrite <- (NilZero.isi (Z.to_int n)), <- (NilZero.isi (Z.to_int m));
      try apply Hnil. now rewrite H. }
  now injection E.
Qed.

Lemma uint_no_space (d : Decimal.uint) :
  has_space (NilEmpty.string_of_uint d) = false.
Proof. induction d; simpl; auto. Qed.

Lemma toString_no_space (n : Z) : has_space (JS.toString n) = false.
Proof.
  unfold JS.toString.
  destruct (Z.to_int n) as [d | d]; simpl;
    destruct d; simpl; auto using uint_no_space.
Qed.

Lemma has_space_append (s r : string) :
  has_space (s +:+ String " " r) = true.
Proof.
  induction s as [| c s IH]; simpl; [reflexivity |].
  now rewrite IH, orb_true_r.
Qed.

(** A string without spaces followed by a space is read back uniquely. *)
Lemma append_space_inj (s1 : string) : forall s2 r1 r2,
  has_space s1 = false -> has_space s2 = false ->
  s1 +:+ String " " r1 = s2 +:+ String " " r2 -> s1 = s2 /\ r1 = r2.
Proof.
  induction s1 as [| c s1 IH]; intros [| c' s2] r1 r2 H1 H2 E; simpl in *.
  - injection E as ->. auto.
  - injection E as <- _. discriminate.
  - injection E as -> _. discriminate.
  - injection E as -> E.
    apply orb_false_elim in H1 as [_ H1]. apply orb_false_elim in H2 as [_ H2].
    destruct (IH _ _ _ H1 H2 E) as [-> ->]. auto.
Qed.

(** Distinct forms have distinct texts. *)
Lemma label_inj (r1 r2 : RelativeDate) : label r1 = label r2 -> r1 = r2.
Proof.
  assert (plain : forall w n r,
            w = JS.toString n +:+ String " " r -> has_space w = true).
  { intros w n r ->. apply has_space_append. }
  assert (prefix : forall a b, "Updated " +:+ a = "Updated " +:+ b -> a = b).
  { intros a b E. simpl in E. now injection E. }
  destruct r1, r2; intros H; try reflexivity; try discriminate;
    apply prefix in H;
    try (apply plain in H; discriminate);
    try (symmetry in H; apply plain in H; discriminate);
    apply append_space_inj in H as [H1 H2];
    auto using toString_no_space; try discriminate;
    apply toString_inj in H1; now subst.
Qed.

Section FormatDateProofs.

Variable Date_parse : string -> JS.timeValue.

Lemma formatDate_label now dateString t :
  Date_parse dateString = Some t ->
  RepositoryList.formatDate Date_parse now dateString
  = label (relativeDate (daysSince now t)).
Proof.
  intros Ht. unfold RepositoryList.formatDate, relativeDate, daysSince.
  rewrite Ht, msPerDay_value. simpl JS.sub. unfold JS.div.
  change (inject_Z 86400000) with (86400000 # 1).
  rewrite Math_floor_div.
  set (d := (now - t) / 86400000).
  change 7%Q with (7 # 1). change 30%Q with (30 # 1).
  change 365%Q with (365 # 1). rewrite !Math_floor_div.
  destruct (Z.eqb_spec d 0); [now rewrite decide_True |].
  rewrite decide_False by assumption.
  destruct (Z.eqb_spec d 1); [now rewrite decide_True |].
  rewrite decide_False by assumption.
  destruct (Z.ltb_spec d 7); [now rewrite decide_True |].
  rewrite decide_False by lia.
  destruct (Z.ltb_spec d 30); [now rewrite decide_True |].
  rewrite decide_False by lia.
  destruct (Z.ltb_spec d 365); [now rewrite decide_True |].
  now rewrite decide_False by lia.
Qed.

(** C4. For every timestamp the formatter produces exactly one of the
    forms today, yesterday, N days ago, N weeks ago, N months ago, N years
    ago, chosen from the whole days elapsed with the boundaries 7, 30 and
    365 and the integer divisions by 7, 30 and 365; at exactly 7 days it
    produces "Updated 1 weeks ago". *)
Theorem formatDate_relativeDate (now : Z) (dateString : string) (t : Z) :
  Date_parse dateString = Some t ->
  RepositoryList.formatDate Date_parse now dateString
  = label (relativeDate (daysSince now t))
  /\ (forall r : RelativeDate,
        RepositoryList.formatDate Date_parse now dateString = label r ->
        r = relativeDate (daysSince now t))
  /\ (now - t = 7 * msPerDay ->
      RepositoryList.formatDate Date_parse now dateString
      = "Updated 1 weeks ago").
Proof.
  intros Ht. pose proof (formatDate_label now dateString t Ht) as E.
  split; [exact E | split].
  - intros r Hr. apply label_inj. now rewrite <- Hr.
  - intros H7. rewrite E. unfold daysSince. rewrite H7.
    reflexivity.
Qed.

End FormatDateProofs.

(** The rule at its boundaries. *)
Example relativeDate_boundaries :
  map (fun d => label (relativeDate d))
      [0; 1; 2; 6; 7; 13; 14; 29; 30; 59; 60; 364; 365; 729; 730; -1]
  = [ "Updated today"; "Updated yesterday"; "Updated 2 days ago";
      "Updated 6 days ago"; "Updated 1 weeks ago"; "Updated 1 weeks ago";
      "Updated 2 weeks ago"; "Updated 4 weeks ago"; "Updated 1 months ago";
      "Updated 1 months ago"; "Updated 2 months ago";
      "Updated 12 months ago"; "Updated 1 years ago"; "Updated 1 years ago";
      "Updated 2 years ago"; "Updated -1 days ago" ].
Proof. reflexivity. Qed.

Lemma formatDate_relativeDate_witness :
  RepositoryList.formatDate JS.Date_parse_iso 1700000000000
    "2023-11-07T22:13:20Z" = "Updated 1 weeks ago".
Proof.
  apply (formatDate_relativeDate JS.Date_parse_iso 1700000000000
           "2023-11-07T22:13:20Z" 1699395200000); reflexivity.
Defined.

(** ** Fetchers *)

Section FetcherProofs.

Variable Date_parse : string -> JS.timeValue.

Lemma fetchUserData_not_ok now username status body s :
  ok status = false ->
  Async.exec
    (App.fetchUserData Date_parse now username (Responded status body)) s
  = App.mkState (App.userData s) (App.unlockedAchievements s) false
      (App.toasts s
       ++ [userMessage username
             (if status =? 404 then NotFound else ServerError)])
      (App.requests s ++ ["https://api.github.com/users/" +:+ username]).
Proof.
  intros Hok.
  unfold App.fetchUserData, Async.exec, Async.tryCatchFinally, Async.bind,
    App.fetch, App.setIsLoading, App.toast_error, App.toast, Async.modify,
    Async.ret, Async.return_.
  simpl. rewrite Hok. simpl.
  destruct (status =? 404); reflexivity.
Qed.

Lemma fetchUserData_thrown now username net s :
  match net with
  | NetworkFailure => True
  | Responded status body => ok status = true /\ body = None
  end ->
  Async.exec (App.fetchUserData Date_parse now username net) s
  = App.mkState (App.userData s) (App.unlockedAchievements s) false
      (App.toasts s ++ [userMessage username NetworkError])
      (App.requests s ++ ["https://api.github.com/users/" +:+ username]).
Proof.
  destruct net as [| status body]; intros H.
  - reflexivity.
  - destruct H as [Hok ->].
    unfold App.fetchUserData, Async.exec, Async.tryCatchFinally,
      Async.bind, App.fetch, App.setIsLoading, App.toast_error, App.toast,
      Async.modify, Async.ret, Async.return_.
    simpl. rewrite Hok. reflexivity.
Qed.

(** A successful fetch stores the record and the recomputed set. *)
Lemma fetchUserData_success now username status data s :
  ok status = true ->
  let user :=
    mkUserData (api_login data) (api_avatar_url data)
      (api_public_repos data) (api_followers data) (api_following data)
      (api_created_at data) in
  Async.exec
    (App.fetchUserData Date_parse now username
       (Responded status (Some data))) s
  = App.mkState (Some user)
      (Some (App.simulateUnlockedAchievements_unlocked Date_parse now user))
      false
      (App.toasts s
       ++ [mkToast ToastSuccess "Profile loaded!"
             (Some ("Viewing achievements for @" +:+ username))])
      (App.requests s ++ ["https://api.github.com/users/" +:+ username]).
Proof.
  intros Hok user.
  unfold App.fetchUserData, Async.exec, Async.tryCatchFinally, Async.bind,
    App.fetch, App.setIsLoading, App.toast_error, App.toast, Async.modify,
    Async.ret, Async.return_.
  simpl. rewrite Hok. reflexivity.
Qed.

Lemma fetchRepositories_failed username net r :
  failed net = true ->
  let r' := Async.exec (RepositoryList.fetchRepositories username net) r in
  RepositoryList.store r' = RepositoryList.store r
  /\ RepositoryList.repos r' = RepositoryList.repos r.
Proof.
  destruct net as [| status body]; intros H; [split; reflexivity |].
  unfold RepositoryList.fetchRepositories, Async.exec,
    Async.tryCatchFinally, Async.bind, RepositoryList.fetch,
    RepositoryList.setIsLoading, RepositoryList.toast_error, Async.modify,
    Async.ret, Async.return_.
  simpl in *. destruct (ok status); simpl in *.
  - destruct body; [discriminate | split; reflexivity].
  - split; reflexivity.
Qed.

(** C5. A failed fetch leaves the earlier state as it was: a failed
    profile fetch (not found, server error or network error) changes
    neither the stored profile record nor the stored unlocked set, and a
    failed repository fetch changes neither the reference held in [repos]
    nor any array of the store. *)
Theorem failed_fetch_keeps_state (now : Z) (username : string)
    (netUser : FetchOutcome ApiUser)
    (netRepos : FetchOutcome (list Repository.t))
    (s : App.State) (r : RepositoryList.State) :
  failed netUser = true -> failed netRepos = true ->
  let s' :=
    Async.exec (App.fetchUserData Date_parse now username netUser) s in
  let r' :=
    Async.exec (RepositoryList.fetchRepositories username netRepos) r in
  App.userData s' = App.userData s
  /\ App.unlockedAchievements s' = App.unlockedAchievements s
  /\ RepositoryList.repos r' = RepositoryList.repos r
  /\ RepositoryList.store r' = RepositoryList.store r
  /\ RepositoryList.contents r' (RepositoryList.repos r')
     = RepositoryList.contents r (RepositoryList.repos r).
Proof.
  intros HU HR s' r'.
  destruct (fetchRepositories_failed username netRepos r HR) as [Hst Hre].
  fold r' in Hst, Hre.
  assert (HS : App.userData s' = App.userData s
               /\ App.unlockedAchievements s' = App.unlockedAchievements s).
  { subst s'. destruct netUser as [| status body].
    - rewrite fetchUserData_thrown by exact I. split; reflexivity.
    - simpl in HU. destruct (ok status) eqn:Hok; simpl in HU.
      + destruct body; [discriminate |].
        rewrite fetchUserData_thrown by (split; auto). split; reflexivity.
      + rewrite fetchUserData_not_ok by exact Hok. split; reflexivity. }
  destruct HS as [H1 H2]. repeat split; try assumption.
  unfold RepositoryList.contents. now rewrite Hst, Hre.
Qed.

(** C6. The profile fetch reports its failures in three classes: status
    404 gives the not-found message, which contains the username; every
    other status that is not a success gives the server-error message
    with its try-again-later text; a failure of the transport gives the
    network-error message; in each case no profile record is stored. *)
Theorem fetchUserData_failure_classes (now : Z) (username : string)
    (status : Z) (body : option ApiUser) (s : App.State) :
  ok status = false ->
  let http :=
    Async.exec
      (App.fetchUserData Date_parse now username (Responded status body))
      s in
  let transport :=
    Async.exec (App.fetchUserData Date_parse now username NetworkFailure)
      s in
  (status = 404 ->
   App.toasts http = App.toasts s ++ [userMessage username NotFound])
  /\ (status <> 404 ->
      App.toasts http = App.toasts s ++ [userMessage username ServerError])
  /\ App.toasts transport
     = App.toasts s ++ [userMessage username NetworkError]
  /\ (exists pre post : string,
         description (userMessage username NotFound)
         = Some (pre +:+ username +:+ post))
  /\ description (userMessage username ServerError)
     = Some "Please try again later."
  /\ App.userData http = App.userData s
  /\ App.userData transport = App.userData s
  /\ ok 404 = false.
Proof.
  intros Hok http transport. subst http transport.
  rewrite fetchUserData_not_ok by exact Hok.
  rewrite fetchUserData_thrown by exact I. simpl.
  repeat split.
  - intros ->. reflexivity.
  - intros Hne. apply Z.eqb_neq in Hne. now rewrite Hne.
  - exists ("The username " +:+ JS.dquote),
      (JS.dquote +:+ " does not exist on GitHub.").
    reflexivity.
Qed.

End FetcherProofs.

(** The three messages are pairwise distinct. *)
Lemma userMessage_distinct (username : string) (e1 e2 : FetchError) :
  userMessage username e1 = userMessage username e2 -> e1 = e2.
Proof. destruct e1, e2; simpl; intros H; try reflexivity; discriminate. Qed.

(** ** Repository presenter *)

Lemma StronglySorted_impl {A} (R R' : A -> A -> Prop) (Q : A -> Prop) l :
  (forall x y, Q x -> Q y -> R x y -> R' x y) ->
  Forall Q l -> StronglySorted R l -> StronglySorted R' l.
Proof.
  intros HR HQ Hs. induction Hs as [| x l Hs IH Hx]; constructor.
  - apply IH. now inversion HQ.
  - inversion HQ as [| ? ? Qx Ql]; subst.
    rewrite Forall_forall in Hx, Ql. apply Forall_forall. auto.
Qed.

Lemma filter_iff_Forall {A} (P1 P2 : A -> Prop)
    `{!forall x, Decision (P1 x), !forall x, Decision (P2 x)} (l : list A) :
  Forall (fun x => P1 x <-> P2 x) l -> filter P1 l = filter P2 l.
Proof.
  induction 1 as [| x l Hx Hl IH]; [reflexivity |].
  rewrite !filter_cons, IH.
  destruct (decide (P1 x)), (decide (P2 x)); tauto.
Qed.

Lemma codeUnitCompare_consistent : localeCompare_consistent codeUnitCompare.
Proof.
  assert (eq0 : forall a b, codeUnitCompare a b = 0 <-> a = b).
  { intros a b. unfold codeUnitCompare.
    pose proof (String_as_OT.cmp_eq a b) as E. unfold String_as_OT.cmp in E.
    destruct (String.compare a b); split; intros H;
      try lia; try reflexivity; try (now apply E);
      apply (proj2 E) in H; discriminate. }
  assert (lt0 : forall a b,
             codeUnitCompare a b < 0 <-> String_as_OT.lt a b).
  { intros a b. unfold codeUnitCompare.
    pose proof (String_as_OT.cmp_lt a b) as E. unfold String_as_OT.cmp in E.
    destruct (String.compare a b); split; intros H;
      try lia; try (now apply E);
      apply (proj2 E) in H; discriminate. }
  assert (gt0 : forall a b,
             codeUnitCompare a b > 0 <-> String_as_OT.lt b a).
  { intros a b. rewrite <- lt0. unfold codeUnitCompare.
    rewrite (String.compare_antisym a b).
    destruct (String.compare b a); simpl; lia. }
  split; unfold JS.sortCompare; intros.
  - now apply eq0.
  - apply eq0. symmetry. now apply eq0.
  - apply eq0. transitivity b; now apply eq0.
  - apply lt0. apply String_as_OT.lt_trans with b; now apply lt0.
  - apply gt0. apply String_as_OT.lt_trans with b; now apply gt0.
Qed.

Section PresenterProofs.

Variable Date_parse : string -> JS.timeValue.
Variable localeCompare : string -> string -> Z.

Local Abbreviation comparefn :=
  (RepositoryList.comparefn Date_parse localeCompare).
Local Abbreviation sortedRepos_of :=
  (RepositoryList.sortedRepos_of Date_parse localeCompare).
Local Abbreviation sortable := (sortable Date_parse).
Local Abbreviation ordered := (ordered Date_parse localeCompare).
Local Abbreviation sameRank := (sameRank Date_parse localeCompare).

Lemma comparefn_consistent mode :
  (mode = RepositoryList.name -> localeCompare_consistent localeCompare) ->
  Consistent (comparefn mode) (sortable mode).
Proof.
  intros Hloc. destruct mode.
  - split; unfold JS.sortCompare, sortable; simpl; intros;
      repeat match goal with
             | H : is_Some _ |- _ => destruct H as [? H]
             end;
      repeat match goal with
             | H : Date_parse _ = Some _ |- _ => rewrite H in *; clear H
             end; simpl in *; lia.
  - split; unfold JS.sortCompare; simpl; intros; lia.
  - specialize (Hloc eq_refl). destruct Hloc as [R S T L G].
    split; unfold JS.sortCompare in *; simpl in *; intros; eauto.
Qed.

Lemma ordered_sortLe mode a b :
  sortable mode a -> sortable mode b ->
  (ordered mode a b <-> sortLe (comparefn mode) a b).
Proof.
  unfold ordered, sortLe, JS.sortCompare.
  destruct mode; simpl; intros Ha Hb.
  - destruct Ha as [ta ->], Hb as [tb ->]. simpl. lia.
  - lia.
  - reflexivity.
Qed.

Lemma sameRank_tied mode a b :
  Consistent (comparefn mode) (sortable mode) ->
  sortable mode a -> sortable mode b ->
  (sameRank mode a b <-> tied (comparefn mode) a b = true).
Proof.
  intros Hc Ha Hb. unfold sameRank.
  rewrite !ordered_sortLe by assumption.
  unfold tied. rewrite Z.eqb_eq. split.
  - intros [H1 H2]. now apply (sortLe_antisym _ (sortable mode)).
  - intros E. pose proof (cc_sym Hc a b Ha Hb E).
    unfold sortLe. lia.
Qed.

(** C7. For every mode the sort returns a permutation of its input that
    is ordered by the mode (descending timestamps, descending star
    counts, ascending names under the locale comparison), ties keeping
    the order of the input; so the first element of the sort by stars of
    a non-empty list has the largest star count of the list. *)
Theorem sortedRepos_sorted_stable
    (mode : RepositoryList.SortMode) (l : list Repository.t) :
  (mode = RepositoryList.name -> localeCompare_consistent localeCompare) ->
  Forall (sortable mode) l ->
  let sorted := sortedRepos_of mode l in
  Permutation sorted l
  /\ StronglySorted (ordered mode) sorted
  /\ (forall k : Repository.t,
        sortable mode k ->
        filter (sameRank mode k) sorted = filter (sameRank mode k) l)
  /\ (mode = RepositoryList.stars -> l <> [] ->
      exists first rest,
        sorted = first :: rest
        /\ first ∈ l
        /\ forall x, x ∈ l ->
             Repository.stargazers_count x
             <= Repository.stargazers_count first).
Proof.
  intros Hloc Hl sorted.
  pose proof (comparefn_consistent mode Hloc) as Hc.
  assert (Hperm : Permutation sorted l) by apply sort_Permutation.
  assert (Hsl : Forall (sortable mode) sorted)
    by now apply sort_Forall.
  assert (Hsorted : StronglySorted (ordered mode) sorted).
  { apply (StronglySorted_impl (sortLe (comparefn mode)) _ (sortable mode));
      [| exact Hsl | now apply (sort_sorted _ (sortable mode))].
    intros x y Hx Hy. now apply ordered_sortLe. }
  split; [exact Hperm | split; [exact Hsorted | split]].
  - intros k Hk.
    rewrite (filter_iff_Forall (sameRank mode k)
               (fun y => tied (comparefn mode) k y = true) sorted).
    + rewrite (filter_iff_Forall (sameRank mode k)
                 (fun y => tied (comparefn mode) k y = true) l).
      * now apply (sort_stable _ (sortable mode)).
      * eapply Forall_impl; [exact Hl |]. intros y Hy.
        now apply sameRank_tied.
    + eapply Forall_impl; [exact Hsl |]. intros y Hy.
      now apply sameRank_tied.
  - intros -> Hne.
    destruct sorted as [| first rest] eqn:E.
    { apply Permutation_nil in Hperm. congruence. }
    exists first, rest. split; [reflexivity | split].
    + rewrite <- Hperm. left.
    + intros x Hx. rewrite <- Hperm in Hx.
      apply elem_of_cons in Hx as [-> | Hx]; [lia |].
      inversion Hsorted as [| ? ? _ Hall]; subst.
      rewrite Forall_forall in Hall. apply (Hall x Hx).
Qed.

(** C8. Sorting by name twice gives the sequence that sorting once
    gives. *)
Theorem sortedRepos_name_idempotent (l : list Repository.t) :
  localeCompare_consistent localeCompare ->
  sortedRepos_of RepositoryList.name
    (sortedRepos_of RepositoryList.name l)
  = sortedRepos_of RepositoryList.name l.
Proof.
  intros Hloc.
  apply (sort_idempotent _ (sortable RepositoryList.name)).
  - now apply comparefn_consistent.
  - apply Forall_forall. intros x _. exact I.
Qed.

End PresenterProofs.

Section NonDestructive.

Variable Date_parse : string -> JS.timeValue.
Variable localeCompare : string -> string -> Z.

(** What a click on a sort button computes, and the state it leaves. *)
Lemma onClick_sort_run mode username net (s : RepositoryList.State) :
  let copy := fresh (dom (RepositoryList.store s)) in
  let sorted :=
    RepositoryList.sortedRepos_of Date_parse localeCompare mode
      (RepositoryList.contents s (RepositoryList.repos s)) in
  RepositoryList.onClick_sort Date_parse localeCompare mode username net s
  = (Async.Normal sorted,
     RepositoryList.mkState
       (<[copy := sorted]> (RepositoryList.store s))
       (RepositoryList.repos s) (RepositoryList.isLoading s) mode
       (RepositoryList.toasts s) (RepositoryList.requests s)).
Proof.
  intros copy sorted.
  unfold RepositoryList.onClick_sort, RepositoryList.render,
    RepositoryList.sortedRepos, RepositoryList.spread,
    RepositoryList.Array_sort, RepositoryList.alloc,
    RepositoryList.setSortBy, RepositoryList.useEffect_username,
    Async.bind, Async.get, Async.modify, Async.ret.
  simpl. rewrite decide_True by reflexivity.
  subst copy sorted.
  unfold RepositoryList.sortedRepos_of, RepositoryList.contents. simpl.
  rewrite !lookup_insert_eq, insert_insert_eq. reflexivity.
Qed.

(** C9. Sorting is pure and non-destructive: the cards shown after a
    click on a sort button are a function of the held sequence and of the
    mode alone; the reference held in [repos] and the array behind it,
    like every other array of the store, are unchanged (the order is
    produced on a copy); and no request is issued. *)
Theorem sort_is_non_destructive
    (mode : RepositoryList.SortMode) (username : string)
    (net : FetchOutcome (list Repository.t)) (s : RepositoryList.State) :
  let result :=
    RepositoryList.onClick_sort Date_parse localeCompare mode username
      net s in
  let s' := snd result in
  fst result
  = Async.Normal
      (RepositoryList.sortedRepos_of Date_parse localeCompare mode
         (RepositoryList.contents s (RepositoryList.repos s)))
  /\ RepositoryList.repos s' = RepositoryList.repos s
  /\ RepositoryList.contents s' (RepositoryList.repos s')
     = RepositoryList.contents s (RepositoryList.repos s)
  /\ RepositoryList.store s ⊆ RepositoryList.store s'
  /\ RepositoryList.requests s' = RepositoryList.requests s
  /\ RepositoryList.toasts s' = RepositoryList.toasts s.
Proof.
  intros result s'. subst s' result. rewrite onClick_sort_run. simpl.
  assert (Hfresh : RepositoryList.store s
                     !! fresh (dom (RepositoryList.store s)) = None).
  { apply not_elem_of_dom, is_fresh. }
  repeat split.
  - unfold RepositoryList.contents. simpl.
    destruct (decide (fresh (dom (RepositoryList.store s))
                      = RepositoryList.repos s)) as [E | N].
    + rewrite E in *. rewrite lookup_insert_eq, Hfresh. reflexivity.
    + now rewrite lookup_insert_ne.
  - now apply insert_subseteq.
Qed.

End NonDestructive.

(** ** The properties on sample data *)

Lemma evaluate_rule_table_witness :
  App.simulateUnlockedAchievements_unlocked JS.Date_parse_iso Sample.now
    Sample.newcomer = [].
Proof.
  destruct (evaluate_rule_table JS.Date_parse_iso Sample.now Sample.newcomer)
    as (_ & _ & _ & H).
  apply (H 1685577600000);
    [reflexivity | reflexivity | reflexivity | vm_compute; discriminate].
Defined.

(** The scenario of a profile with 10 repositories, 20 followers and an
    account created two years ago: six achievements are unlocked. *)
Example octocat_unlocked :
  Async.exec
    (App.fetchUserData JS.Date_parse_iso Sample.now "octocat"
       (Responded 200
          (Some (mkApiUser "octocat" "https://avatars.example/octocat" 10 20
                           9 "2021-11-14T22:13:20Z"))))
    (App.mkState None (Some []) false [] [])
  = App.mkState (Some Sample.octocat)
      (Some ["yolo"; "quickdraw"; "open-sourcerer"; "heart-on-sleeve";
             "pair-extraordinaire"; "pull-shark"])
      false
      [mkToast ToastSuccess "Profile loaded!"
         (Some "Viewing achievements for @octocat")]
      ["https://api.github.com/users/octocat"].
Proof. reflexivity. Qed.

Lemma failed_fetch_keeps_state_witness :
  let s' :=
    Async.exec
      (App.fetchUserData JS.Date_parse_iso Sample.now "doesnotexist123456"
         (Responded 404 None)) Sample.app in
  let r' :=
    Async.exec
      (RepositoryList.fetchRepositories "octocat" (Responded 503 None))
      Sample.repositoryList in
  App.userData s' = Some Sample.octocat
  /\ App.unlockedAchievements s' = Some ["yolo"; "quickdraw"]
  /\ RepositoryList.contents r' (RepositoryList.repos r')
     = Sample.repositories.
Proof.
  destruct (failed_fetch_keeps_state JS.Date_parse_iso Sample.now
              "doesnotexist123456" (Responded 404 None) (Responded 503 None)
              Sample.app Sample.repositoryList eq_refl eq_refl)
    as (H1 & H2 & _ & _ & H5).
  split; [exact H1 | split; [exact H2 | exact H5]].
Defined.

Lemma fetchUserData_failure_classes_witness :
  App.toasts
    (Async.exec
       (App.fetchUserData JS.Date_parse_iso Sample.now "octocat"
          (Responded 500 None)) Sample.app)
  = [mkToast ToastError "Failed to fetch user data"
       (Some "Please try again later.")].
Proof.
  destruct (fetchUserData_failure_classes JS.Date_parse_iso Sample.now
              "octocat" 500 None Sample.app eq_refl)
    as (_ & H & _).
  apply H. discriminate.
Defined.

Lemma sortedRepos_sorted_stable_witness :
  let sorted :=
    RepositoryList.sortedRepos_of JS.Date_parse_iso codeUnitCompare
      RepositoryList.name Sample.repositories in
  Permutation sorted Sample.repositories
  /\ StronglySorted
       (ordered JS.Date_parse_iso codeUnitCompare RepositoryList.name)
       sorted.
Proof.
  assert (Hs : Forall (sortable JS.Date_parse_iso RepositoryList.name)
                 Sample.repositories)
    by (repeat constructor).
  destruct (sortedRepos_sorted_stable JS.Date_parse_iso codeUnitCompare
              RepositoryList.name Sample.repositories
              (fun _ => codeUnitCompare_consistent) Hs)
    as (H1 & H2 & _).
  split; [exact H1 | exact H2].
Defined.

Lemma sortedRepos_name_idempotent_witness :
  RepositoryList.sortedRepos_of JS.Date_parse_iso codeUnitCompare
    RepositoryList.name
    (RepositoryList.sortedRepos_of JS.Date_parse_iso codeUnitCompare
       RepositoryList.name Sample.repositories)
  = RepositoryList.sortedRepos_of JS.Date_parse_iso codeUnitCompare
      RepositoryList.name Sample.repositories.
Proof.
  apply (sortedRepos_name_idempotent JS.Date_parse_iso codeUnitCompare
           Sample.repositories codeUnitCompare_consistent).
Defined.

(** The three orders on the sample: the two repositories with 12 stars,
    the two updated at the same instant and the two of the same name keep
    the order of the input. *)
Example sortedRepos_sample :
  RepositoryList.sortedRepos_of JS.Date_parse_iso codeUnitCompare
    RepositoryList.stars Sample.repositories
  = [Sample.hello; Sample.spoon; Sample.boys; Sample.twin]
  /\ RepositoryList.sortedRepos_of JS.Date_parse_iso codeUnitCompare
       RepositoryList.updated Sample.repositories
     = [Sample.hello; Sample.spoon; Sample.twin; Sample.boys]
  /\ RepositoryList.sortedRepos_of JS.Date_parse_iso codeUnitCompare
       RepositoryList.name Sample.repositories
     = [Sample.hello; Sample.twin; Sample.spoon; Sample.boys].
Proof. repeat split. Qed.

(** A click on "Most Stars" on the sample: the cards are reordered, the
    held array and the log of requests are as before. *)
Example onClick_sort_sample :
  let result :=
    RepositoryList.onClick_sort JS.Date_parse_iso codeUnitCompare
      RepositoryList.stars "octocat" NetworkFailure Sample.repositoryList in
  fst result
  = Async.Normal [Sample.hello; Sample.spoon; Sample.boys; Sample.twin]
  /\ RepositoryList.contents (snd result) 0%nat = Sample.repositories
  /\ RepositoryList.requests (snd result) = [].
Proof.
  intros result. subst result. rewrite onClick_sort_run. simpl.
  repeat split.
Qed.

(** * Further properties of the code *)

(** ** The fetchers, whatever the network answers *)

Section FetcherRuns.

Variable Date_parse : string -> JS.timeValue.

Lemma fetchUserData_completion now username net s :
  fst (App.fetchUserData Date_parse now username net s) <> Async.Throw.
Proof.
  destruct net as [| status body]; [discriminate |].
  unfold App.fetchUserData, Async.tryCatchFinally, Async.bind, App.fetch,
    App.setIsLoading, App.toast_error, App.toast, Async.modify, Async.ret,
    Async.return_.
  simpl. destruct (ok status); simpl.
  - destruct body; discriminate.
  - destruct (status =? 404); discriminate.
Qed.

(** X1. Whatever the network answers, a call of [fetchUserData] never
    rejects, ends with the loading flag off, issues exactly one request
    (for the profile of [username]) and shows exactly one toast, which is
    the success toast exactly when the fetch did not fail. *)
Theorem fetchUserData_settles (now : Z) (username : string)
    (net : FetchOutcome ApiUser) (s : App.State) :
  let r := App.fetchUserData Date_parse now username net s in
  fst r <> Async.Throw
  /\ App.isLoading (snd r) = false
  /\ App.requests (snd r)
     = App.requests s ++ ["https://api.github.com/users/" +:+ username]
  /\ exists t : Toast,
       App.toasts (snd r) = App.toasts s ++ [t]
       /\ (level t = ToastSuccess <-> failed net = false).
Proof.
  intros r. split; [apply fetchUserData_completion |].
  subst r. change (snd (?m s)) with (Async.exec m s).
  destruct net as [| status body].
  - rewrite fetchUserData_thrown by exact I. simpl.
    repeat split. eexists. split; [reflexivity |]. simpl.
    split; discriminate.
  - destruct (ok status) eqn:Hok.
    + destruct body as [data |].
      * rewrite fetchUserData_success by exact Hok. simpl.
        repeat split. eexists. split; [reflexivity |]. simpl.
        rewrite Hok. tauto.
      * rewrite fetchUserData_thrown by (split; auto). simpl.
        repeat split. eexists. split; [reflexivity |]. simpl.
        rewrite Hok. split; discriminate.
    + rewrite fetchUserData_not_ok by exact Hok. simpl.
      repeat split. eexists. split; [reflexivity |]. simpl.
      rewrite Hok. destruct (status =? 404); split; discriminate.
Qed.

(** X2. A successful profile fetch stores the six fields of the response
    as they are and replaces the unlocked set by the set of the new
    profile: an id is in it exactly under the condition of its rule,
    whatever was unlocked before. *)
Theorem fetchUserData_success_replaces (now : Z) (username : string)
    (status : Z) (data : ApiUser) (s : App.State) :
  ok status = true ->
  let s' :=
    Async.exec
      (App.fetchUserData Date_parse now username
         (Responded status (Some data))) s in
  let user :=
    mkUserData (api_login data) (api_avatar_url data)
      (api_public_repos data) (api_followers data) (api_following data)
      (api_created_at data) in
  App.userData s' = Some user
  /\ exists unlocked : list string,
       App.unlockedAchievements s' = Some unlocked
       /\ forall a : string,
            a ∈ unlocked <->
              ((a = "yolo" \/ a = "quickdraw") /\ 2 <= api_public_repos data)
              \/ ((a = "open-sourcerer" \/ a = "heart-on-sleeve")
                  /\ 5 <= api_public_repos data)
              \/ (a = "pair-extraordinaire" /\ 10 <= api_followers data)
              \/ (a = "pull-shark" /\ olderThan365Days Date_parse now user).
Proof.
  intros Hok s' user. subst s'.
  rewrite fetchUserData_success by exact Hok. simpl.
  split; [reflexivity |]. eexists. split; [reflexivity |].
  intros a. apply (unlocked_elem_of Date_parse now user a).
Qed.

End FetcherRuns.

Lemma fetchUserData_success_replaces_witness :
  App.userData
    (Async.exec
       (App.fetchUserData JS.Date_parse_iso Sample.now "newcomer"
          (Responded 200
             (Some (mkApiUser "newcomer" "https://avatars.example/newcomer"
                              1 3 5 "2023-06-01T00:00:00Z"))))
       Sample.app)
  = Some Sample.newcomer.
Proof.
  apply (fetchUserData_success_replaces JS.Date_parse_iso Sample.now
           "newcomer" 200
           (mkApiUser "newcomer" "https://avatars.example/newcomer" 1 3 5
                      "2023-06-01T00:00:00Z")
           Sample.app eq_refl).
Defined.

Lemma fetchRepositories_success username status data
    (r : RepositoryList.State) :
  ok status = true ->
  RepositoryList.fetchRepositories username (Responded status (Some data)) r
  = (Async.Normal tt,
     RepositoryList.mkState
       (<[fresh (dom (RepositoryList.store r)) := data]>
          (RepositoryList.store r))
       (fresh (dom (RepositoryList.store r))) false
       (RepositoryList.sortBy r) (RepositoryList.toasts r)
       (RepositoryList.requests r
        ++ ["https://api.github.com/users/" +:+ username
            +:+ "/repos?sort=updated&per_page=30"])).
Proof.
  intros Hok.
  unfold RepositoryList.fetchRepositories, Async.tryCatchFinally,
    Async.bind, RepositoryList.fetch, RepositoryList.json,
    RepositoryList.alloc, RepositoryList.setRepos,
    RepositoryList.setIsLoading, RepositoryList.toast_error, Async.modify,
    Async.ret, Async.return_.
  simpl. rewrite Hok. reflexivity.
Qed.

Lemma fetchRepositories_failure username net (r : RepositoryList.State) :
  failed net = true ->
  exists (c : Async.completion unit) (t : Toast),
    c <> Async.Throw
    /\ level t = ToastError
    /\ RepositoryList.fetchRepositories username net r
       = (c,
          RepositoryList.mkState (RepositoryList.store r)
            (RepositoryList.repos r) false (RepositoryList.sortBy r)
            (RepositoryList.toasts r ++ [t])
            (RepositoryList.requests r
             ++ ["https://api.github.com/users/" +:+ username
                 +:+ "/repos?sort=updated&per_page=30"])).
Proof.
  intros Hf.
  unfold RepositoryList.fetchRepositories, Async.tryCatchFinally,
    Async.bind, RepositoryList.fetch, RepositoryList.json,
    RepositoryList.alloc, RepositoryList.setRepos,
    RepositoryList.setIsLoading, RepositoryList.toast_error, Async.modify,
    Async.ret, Async.return_.
  destruct net as [| status body]; simpl.
  - eexists _, _. split; [| split; [| reflexivity]];
      [discriminate | reflexivity].
  - simpl in Hf. destruct (ok status); simpl in *.
    + destruct body; [discriminate |].
      eexists _, _. split; [| split; [| reflexivity]];
        [discriminate | reflexivity].
    + eexists _, _. split; [| split; [| reflexivity]];
        [discriminate | reflexivity].
Qed.

(** X3. Whatever the network answers, a call of [fetchRepositories] never
    rejects, ends with the loading flag off, leaves the sort mode as it
    was, issues exactly one request (30 repositories sorted by update), and
    shows one error toast when the fetch failed and no toast otherwise. *)
Theorem fetchRepositories_settles (username : string)
    (net : FetchOutcome (list Repository.t)) (r : RepositoryList.State) :
  let res := RepositoryList.fetchRepositories username net r in
  fst res <> Async.Throw
  /\ RepositoryList.isLoading (snd res) = false
  /\ RepositoryList.sortBy (snd res) = RepositoryList.sortBy r
  /\ RepositoryList.requests (snd res)
     = RepositoryList.requests r
       ++ ["https://api.github.com/users/" +:+ username
           +:+ "/repos?sort=updated&per_page=30"]
  /\ (if failed net
      then exists t, level t = ToastError
                     /\ RepositoryList.toasts (snd res)
                        = RepositoryList.toasts r ++ [t]
      else RepositoryList.toasts (snd res) = RepositoryList.toasts r).
Proof.
  intros res. subst res. destruct (failed net) eqn:Hf.
  - destruct (fetchRepositories_failure username net r Hf)
      as (c & t & Hc & Ht & E).
    rewrite E. simpl. repeat split; try assumption. now exists t.
  - destruct net as [| status [data |]]; simpl in Hf; try discriminate;
      try (rewrite orb_true_r in Hf; discriminate).
    rewrite orb_false_r in Hf. apply negb_false_iff in Hf.
    rewrite fetchRepositories_success by exact Hf. simpl.
    repeat split. discriminate.
Qed.

(** ** What the repository list shows *)

Section ViewProofs.

Variable Date_parse : string -> JS.timeValue.
Variable localeCompare : string -> string -> Z.

(** Reading the held array after the copy was made and sorted. *)
Lemma contents_after_copy (s : RepositoryList.State)
    (f : list Repository.t -> list Repository.t) :
  f [] = [] ->
  default []
    (<[fresh (dom (RepositoryList.store s))
       := f (RepositoryList.contents s (RepositoryList.repos s))]>
       (RepositoryList.store s) !! RepositoryList.repos s)
  = RepositoryList.contents s (RepositoryList.repos s).
Proof.
  intros Hf. unfold RepositoryList.contents.
  assert (Hfresh : RepositoryList.store s
                     !! fresh (dom (RepositoryList.store s)) = None)
    by apply not_elem_of_dom, is_fresh.
  destruct (decide (fresh (dom (RepositoryList.store s))
                    = RepositoryList.repos s)) as [E | N].
  - rewrite E in *. rewrite lookup_insert_eq, Hfresh. exact Hf.
  - now rewrite lookup_insert_ne.
Qed.

Lemma contents_mkState st rp il sb ts rq (a : nat) :
  RepositoryList.contents (RepositoryList.mkState st rp il sb ts rq) a
  = default [] (st !! a).
Proof. reflexivity. Qed.

Lemma sortedRepos_run (s : RepositoryList.State) :
  RepositoryList.sortedRepos Date_parse localeCompare s
  = (Async.Normal (fresh (dom (RepositoryList.store s))),
     RepositoryList.mkState
       (<[fresh (dom (RepositoryList.store s))
          := RepositoryList.sortedRepos_of Date_parse localeCompare
               (RepositoryList.sortBy s)
               (RepositoryList.contents s (RepositoryList.repos s))]>
          (RepositoryList.store s))
       (RepositoryList.repos s) (RepositoryList.isLoading s)
       (RepositoryList.sortBy s) (RepositoryList.toasts s)
       (RepositoryList.requests s)).
Proof.
  unfold RepositoryList.sortedRepos, RepositoryList.spread,
    RepositoryList.Array_sort, RepositoryList.alloc, Async.bind, Async.get,
    Async.modify, Async.ret.
  simpl.
  unfold RepositoryList.sortedRepos_of, RepositoryList.contents. simpl.
  rewrite !lookup_insert_eq, insert_insert_eq. reflexivity.
Qed.

Lemma view_run (s : RepositoryList.State) :
  let held := RepositoryList.contents s (RepositoryList.repos s) in
  let sorted :=
    RepositoryList.sortedRepos_of Date_parse localeCompare
      (RepositoryList.sortBy s) held in
  RepositoryView.view Date_parse localeCompare s
  = (Async.Normal
       (if RepositoryList.isLoading s then RepositoryView.Skeleton
        else
          match held with
          | [] => RepositoryView.EmptyNotice
          | _ :: _ =>
              RepositoryView.ListView
                (RepositoryView.heading (Z.of_nat (length held))) sorted
          end),
     RepositoryList.mkState
       (<[fresh (dom (RepositoryList.store s)) := sorted]>
          (RepositoryList.store s))
       (RepositoryList.repos s) (RepositoryList.isLoading s)
       (RepositoryList.sortBy s) (RepositoryList.toasts s)
       (RepositoryList.requests s)).
Proof.
  intros held sorted. subst held sorted.
  unfold RepositoryView.view, Async.bind. rewrite sortedRepos_run.
  unfold Async.get, Async.ret. simpl.
  destruct (RepositoryList.isLoading s); [reflexivity |].
  rewrite !contents_mkState, lookup_insert_eq.
  rewrite (contents_after_copy s
             (RepositoryList.sortedRepos_of Date_parse localeCompare
                (RepositoryList.sortBy s)) eq_refl).
  simpl.
  destruct (RepositoryList.contents s (RepositoryList.repos s));
    reflexivity.
Qed.

(** X4. What is rendered once a repository fetch has settled is never the
    skeleton.  After a failed fetch it is the list held before, and after a
    successful fetch the fetched list, ordered by the current mode and with
    its count in the heading; when that list is empty it is the notice that
    no public repositories were found, so a failed first fetch and a user
    without repositories render alike. *)
Theorem view_after_fetch (username : string)
    (net : FetchOutcome (list Repository.t)) (r : RepositoryList.State) :
  let r1 := snd (RepositoryList.fetchRepositories username net r) in
  let shown :=
    match net with
    | Responded status (Some data) =>
        if ok status then data
        else RepositoryList.contents r (RepositoryList.repos r)
    | _ => RepositoryList.contents r (RepositoryList.repos r)
    end in
  fst (RepositoryView.view Date_parse localeCompare r1)
  = Async.Normal
      match shown with
      | [] => RepositoryView.EmptyNotice
      | _ :: _ =>
          RepositoryView.ListView
            (RepositoryView.heading (Z.of_nat (length shown)))
            (RepositoryList.sortedRepos_of Date_parse localeCompare
               (RepositoryList.sortBy r) shown)
      end.
Proof.
  intros r1 shown. subst r1. rewrite view_run.
  destruct (failed net) eqn:Hf.
  - destruct (fetchRepositories_failure username net r Hf)
      as (c & t & _ & _ & E).
    rewrite E. simpl.
    assert (shown = RepositoryList.contents r (RepositoryList.repos r))
      as ->.
    { subst shown. destruct net as [| status [data |]]; try reflexivity.
      simpl in Hf. rewrite orb_false_r in Hf.
      apply negb_true_iff in Hf. now rewrite Hf. }
    reflexivity.
  - destruct net as [| status [data |]]; simpl in Hf; try discriminate;
      try (rewrite orb_true_r in Hf; discriminate).
    rewrite orb_false_r in Hf. apply negb_false_iff in Hf.
    rewrite fetchRepositories_success by exact Hf.
    subst shown. rewrite Hf. simpl.
    unfold RepositoryList.contents. simpl. rewrite lookup_insert_eq.
    reflexivity.
Qed.

(** X5. The cards after a click on a sort button depend on the held
    list and on the mode clicked last only: the orders of earlier clicks do
    not accumulate, since every render sorts a new copy of [repos]. *)
Theorem sort_clicks_do_not_accumulate
    (mode1 mode2 : RepositoryList.SortMode) (username : string)
    (net1 net2 : FetchOutcome (list Repository.t))
    (s : RepositoryList.State) :
  let s1 :=
    snd (RepositoryList.onClick_sort Date_parse localeCompare mode1
           username net1 s) in
  fst (RepositoryList.onClick_sort Date_parse localeCompare mode2 username
         net2 s1)
  = Async.Normal
      (RepositoryList.sortedRepos_of Date_parse localeCompare mode2
         (RepositoryList.contents s (RepositoryList.repos s))).
Proof.
  intros s1. subst s1. rewrite !onClick_sort_run. simpl.
  unfold RepositoryList.contents at 1. simpl.
  rewrite (contents_after_copy s
             (RepositoryList.sortedRepos_of Date_parse localeCompare mode1)
             eq_refl).
  reflexivity.
Qed.

End ViewProofs.

(** ** The mount effect *)

(** X6. The effect at mount never throws.  With a restored profile it
    changes nothing and issues no request; otherwise the state changes only
    by one call of [fetchUserData] for the login of the signed-in user, made
    when that login exists and is not empty. *)
Theorem useEffect_mount_guarded (Date_parse : string -> JS.timeValue)
    (now : Z) (spark : AppView.SparkUser) (net : FetchOutcome ApiUser)
    (s : App.State) :
  let r := AppView.useEffect_mount Date_parse now spark net s in
  fst r = Async.Normal tt
  /\ (match App.userData s with
      | Some _ => snd r = s
      | None =>
          match spark with
          | AppView.SparkResolved (Some login) =>
              if String.eqb login EmptyString then snd r = s
              else snd r
                   = Async.exec (App.fetchUserData Date_parse now login net)
                       s
          | _ => snd r = s
          end
      end).
Proof.
  intros r. subst r.
  unfold AppView.useEffect_mount, AppView.loadCurrentUser,
    JSX.call_unawaited, Async.tryCatchFinally, Async.bind, Async.get,
    Async.ret, Async.throw, Async.exec.
  simpl. destruct (App.userData s); [split; reflexivity |].
  split; [reflexivity |].
  destruct spark as [| [login |]]; simpl; try reflexivity.
  destruct (String.eqb login EmptyString); reflexivity.
Qed.

(** ** The evaluator and the progress together *)

Lemma sublist_group (c c' : bool) (l : list string) :
  (c = true -> c' = true) ->
  (if c then l else []) `sublist_of` (if c' then l else []).
Proof.
  intros H. destruct c.
  - now rewrite H.
  - apply sublist_nil_l.
Qed.

Section EvaluatorProgress.

Variable Date_parse : string -> JS.timeValue.

Local Abbreviation unlockedOf :=
  (App.simulateUnlockedAchievements_unlocked Date_parse).

(** X7. The unlocked set only grows with the profile and with time: with
    at least as many repositories and followers, the same creation date and
    a later instant, every id unlocked before is still unlocked, in the
    same order. *)
Theorem unlocked_monotone (now now' : Z) (user user' : UserData) :
  publicRepos user <= publicRepos user' ->
  followers user <= followers user' ->
  createdAt user = createdAt user' ->
  now <= now' ->
  unlockedOf now user `sublist_of` unlockedOf now' user'.
Proof.
  intros Hr Hf Hc Hn. rewrite !unlocked_groups.
  repeat apply sublist_app; apply sublist_group.
  - rewrite !Z.geb_le. lia.
  - rewrite !Z.geb_le. lia.
  - rewrite !Z.geb_le. lia.
  - rewrite !pull_shark_condition. unfold olderThan365Days.
    rewrite <- Hc. intros (t & Ht & H). exists t. split; [exact Ht | lia].
Qed.

Lemma unlocked_sublist (now : Z) (user : UserData) :
  unlockedOf now user `sublist_of` unlockableIds.
Proof.
  rewrite unlocked_groups.
  change unlockableIds
    with (["yolo"; "quickdraw"] ++ ["open-sourcerer"; "heart-on-sleeve"]
          ++ ["pair-extraordinaire"] ++ ["pull-shark"]).
  repeat apply sublist_app;
    match goal with
    | |- (if ?c then _ else _) `sublist_of` _ =>
        destruct c; [reflexivity | apply sublist_nil_l]
    end.
Qed.

(** X8. The unlocked set is a selection of the six ids, in the order they
    are pushed, so it has at most six elements; the ids of a rule come
    together, and the two ids of five repositories never come without the
    two ids of two repositories. *)
Theorem unlocked_tiers (now : Z) (user : UserData) :
  let unlocked := unlockedOf now user in
  unlocked `sublist_of` unlockableIds
  /\ (length unlocked <= 6)%nat
  /\ ("yolo" ∈ unlocked <-> "quickdraw" ∈ unlocked)
  /\ ("open-sourcerer" ∈ unlocked <-> "heart-on-sleeve" ∈ unlocked)
  /\ ("open-sourcerer" ∈ unlocked -> "yolo" ∈ unlocked).
Proof.
  intros unlocked.
  assert (Hsub : unlocked `sublist_of` unlockableIds)
    by apply unlocked_sublist.
  split; [exact Hsub | split].
  - apply sublist_length in Hsub. exact Hsub.
  - subst unlocked. rewrite !unlocked_elem_of.
    repeat split; intros H;
      repeat match goal with
             | H : _ \/ _ |- _ => destruct H as [H | H]
             | H : _ /\ _ |- _ => destruct H
             end;
      try discriminate.
    + left. split; [now right | assumption].
    + left. split; [now left | assumption].
    + right. left. split; [now right | assumption].
    + right. left. split; [now left | assumption].
    + left. split; [now left | lia].
Qed.

Lemma locked_at_most_99 (profile : UserData) (unlockedSet : list string)
    (achievement : Achievement.t) :
  JS.includes unlockedSet (Achievement.id achievement) = false ->
  (App.getAchievementProgress (Some profile) (Some unlockedSet) achievement
   <= 99)%Q.
Proof.
  intros I. unfold App.getAchievementProgress.
  destruct (JS.includes _ _); [discriminate |].
  repeat (destruct (String.eqb (Achievement.id achievement) _);
          [apply Q.le_min_r |]).
  destruct (publicRepos profile >? 0); discriminate.
Qed.

(** X9. With a profile loaded the progress of a card is 100 exactly when
    the card is shown as unlocked; a locked card never has more than 99,
    however large the counts are. *)
Theorem progress_100_iff_unlocked (profile : UserData)
    (unlockedSet : list string) (achievement : Achievement.t) :
  let progress :=
    App.getAchievementProgress (Some profile) (Some unlockedSet)
      achievement in
  ((progress == 100)%Q
   <-> AppView.cardUnlocked (Some unlockedSet) achievement = true)
  /\ (AppView.cardUnlocked (Some unlockedSet) achievement = false
      <-> (progress <= 99)%Q).
Proof.
  intros progress. subst progress.
  unfold AppView.cardUnlocked, JSX.optional_includes, JSX.truthy.
  rewrite orb_false_r.
  destruct (JS.includes unlockedSet (Achievement.id achievement)) eqn:I.
  - assert (E : App.getAchievementProgress (Some profile)
                   (Some unlockedSet) achievement = 100%Q).
    { unfold App.getAchievementProgress.
      destruct (JS.includes _ _); [reflexivity | discriminate]. }
    rewrite E.
    split; split; intros H; try reflexivity; try discriminate.
    exfalso. revert H. apply Qlt_not_le. reflexivity.
  - pose proof (locked_at_most_99 profile unlockedSet achievement I) as L.
    split; split; intros H; try reflexivity; try discriminate;
      try exact L.
    rewrite H in L. exfalso. revert L. apply Qlt_not_le. reflexivity.
Qed.

Lemma percent_monotone (n m : Z) (d : positive) :
  n <= m ->
  (inject_Z n / inject_Z (Zpos d) * 100
   <= inject_Z m / inject_Z (Zpos d) * 100)%Q.
Proof.
  intros H. unfold Qle, Qdiv, Qmult, Qinv, inject_Z. simpl. nia.
Qed.

(** X10. The progress never goes down when the counts go up: with the
    same unlocked set, a profile with at least as many repositories and
    followers has at least the progress, for every achievement. *)
Theorem progress_monotone (profile profile' : UserData)
    (unlockedSet : list string) (achievement : Achievement.t) :
  publicRepos profile <= publicRepos profile' ->
  followers profile <= followers profile' ->
  (App.getAchievementProgress (Some profile) (Some unlockedSet) achievement
   <= App.getAchievementProgress (Some profile') (Some unlockedSet)
        achievement)%Q.
Proof.
  intros Hr Hf. unfold App.getAchievementProgress.
  destruct (JS.includes _ _); [apply Qle_refl |].
  repeat (destruct (String.eqb (Achievement.id achievement) _);
          [apply Q.min_le_compat_r, (percent_monotone _ _ _); assumption |]).
  destruct (Z.gtb_spec (publicRepos profile) 0),
    (Z.gtb_spec (publicRepos profile') 0);
    try discriminate; lia.
Qed.


(** X12. An achievement whose id is none of the six is never unlocked by
    an evaluation: its card is shown locked and its progress stays at 99 or
    below, whatever the profile. *)
Theorem other_ids_never_unlocked (now : Z) (user : UserData)
    (achievement : Achievement.t) :
  Achievement.id achievement ∉ unlockableIds ->
  AppView.cardUnlocked (Some (unlockedOf now user)) achievement = false
  /\ (App.getAchievementProgress (Some user) (Some (unlockedOf now user))
        achievement <= 99)%Q.
Proof.
  intros Hid.
  assert (I : JS.includes (unlockedOf now user) (Achievement.id achievement)
              = false).
  { destruct (JS.includes _ _) eqn:I; [| reflexivity].
    exfalso. apply Hid. apply includes_elem_of in I.
    eapply sublist_subseteq; [apply (unlocked_sublist now user) | exact I]. }
  split; [| now apply locked_at_most_99].
  unfold AppView.cardUnlocked. simpl. now rewrite I.
Qed.

End EvaluatorProgress.

(** ** Tabs and counters *)

Lemma filter_partition_Permutation {A} (p : A -> bool) (l : list A) :
  Permutation (List.filter p l ++ List.filter (fun a => negb (p a)) l) l.
Proof.
  induction l as [| a l IH]; simpl; [reflexivity |].
  destruct (p a); simpl.
  - now constructor.
  - rewrite <- Permutation_middle. now constructor.
Qed.

Lemma elem_of_map_filter {A B} (f : A -> B) (p : A -> bool) (l : list A)
    (y : B) :
  y ∈ map f (List.filter p l) <-> exists a, a ∈ l /\ p a = true /\ f a = y.
Proof.
  rewrite list_elem_of_In, in_map_iff. split.
  - intros (a & E & Ha). apply filter_In in Ha as [Ha Hp].
    exists a. rewrite list_elem_of_In. auto.
  - intros (a & Ha & Hp & E). exists a. split; [exact E |].
    apply filter_In. rewrite <- list_elem_of_In. auto.
Qed.

Lemma NoDup_map_filter {A B} (f : A -> B) (p : A -> bool) (l : list A) :
  NoDup (map f l) -> NoDup (map f (List.filter p l)).
Proof.
  induction l as [| a l IH]; simpl; [auto |].
  rewrite NoDup_cons. intros [Hn Hl].
  destruct (p a); simpl; [| auto].
  apply NoDup_cons. split; [| auto].
  intros Hin. apply Hn. apply elem_of_map_filter in Hin as (b & Hb & _ & E).
  rewrite list_elem_of_In, in_map_iff. exists b.
  rewrite <- list_elem_of_In. auto.
Qed.

Lemma filter_const {A} (b : bool) (l : list A) :
  List.filter (fun _ => b) l = if b then l else [].
Proof.
  induction l as [| a l IH]; simpl; [now destruct b |].
  rewrite IH. now destruct b.
Qed.

Section TabsProofs.

Variable achievements : list Achievement.t.

Local Abbreviation filteredAchievements :=
  (AppView.filteredAchievements achievements).
Local Abbreviation unlockedCount := (AppView.unlockedCount achievements).
Local Abbreviation lockedLabel := (AppView.lockedLabel achievements).

(** X13. The tabs "unlocked" and "locked" split the catalog: every
    achievement is on exactly one of them, the numbers in the two labels
    are the numbers of cards on the tabs, and the cards of "unlocked" are
    the ones shown as unlocked.  The tab "all" shows the whole catalog.
    Without an unlocked list nothing counts as unlocked. *)
Theorem tabs_partition (unlockedAchievements : option (list string)) :
  Permutation
    (filteredAchievements "unlocked" unlockedAchievements
     ++ filteredAchievements "locked" unlockedAchievements)
    achievements
  /\ Z.of_nat (length (filteredAchievements "unlocked" unlockedAchievements))
     = unlockedCount unlockedAchievements
  /\ Z.of_nat (length (filteredAchievements "locked" unlockedAchievements))
     = lockedLabel unlockedAchievements
  /\ Forall
       (fun a => AppView.cardUnlocked unlockedAchievements a = true)
       (filteredAchievements "unlocked" unlockedAchievements)
  /\ Forall
       (fun a => AppView.cardUnlocked unlockedAchievements a = false)
       (filteredAchievements "locked" unlockedAchievements)
  /\ filteredAchievements "all" unlockedAchievements = achievements
  /\ filteredAchievements "unlocked" None = []
  /\ filteredAchievements "locked" None = achievements
  /\ unlockedCount None = 0.
Proof.
  set (p := fun a : Achievement.t =>
              JSX.truthy
                (JSX.optional_includes unlockedAchievements
                   (Achievement.id a))).
  assert (EU : filteredAchievements "unlocked" unlockedAchievements
               = List.filter p achievements) by reflexivity.
  assert (EL : filteredAchievements "locked" unlockedAchievements
               = List.filter (fun a => negb (p a)) achievements)
    by reflexivity.
  assert (Hperm := filter_partition_Permutation p achievements).
  rewrite EU, EL.
  split; [exact Hperm | split; [reflexivity | split]].
  - unfold AppView.lockedLabel, AppView.unlockedCount. fold p.
    apply Permutation_length in Hperm. rewrite length_app in Hperm. lia.
  - split; [| split; [| split; [| split; [| split]]]].
    + apply Forall_forall. intros a Ha.
      apply list_elem_of_In, filter_In in Ha as [_ Ha].
      unfold AppView.cardUnlocked. fold (p a). now rewrite Ha.
    + apply Forall_forall. intros a Ha.
      apply list_elem_of_In, filter_In in Ha as [_ Ha].
      unfold AppView.cardUnlocked. fold (p a).
      apply negb_true_iff in Ha. now rewrite Ha.
    + apply (filter_const true).
    + apply (filter_const false).
    + apply (filter_const true).
    + unfold AppView.unlockedCount. simpl.
      now rewrite (filter_const false).
Qed.

(** X14. In a catalog with distinct ids the counter of unlocked
    achievements is at most the length of the unlocked list, hence at most
    six after an evaluation; it is the length of the list when the list has
    no duplicates and names achievements of the catalog only. *)
Theorem unlockedCount_bound (unlocked : list string) :
  NoDup (map Achievement.id achievements) ->
  0 <= unlockedCount (Some unlocked) <= Z.of_nat (length unlocked)
  /\ (forall Date_parse now user,
        unlockedCount
          (Some (App.simulateUnlockedAchievements_unlocked Date_parse now
                   user)) <= 6)
  /\ (NoDup unlocked ->
      (forall a, a ∈ unlocked -> a ∈ map Achievement.id achievements) ->
      unlockedCount (Some unlocked) = Z.of_nat (length unlocked)).
Proof.
  intros Hnd.
  assert (count : forall l : list string,
             AppView.unlockedCount achievements (Some l)
             = Z.of_nat
                 (length
                    (map Achievement.id
                       (List.filter
                          (fun a => JS.includes l (Achievement.id a))
                          achievements)))).
  { intros l. unfold AppView.unlockedCount. now rewrite length_map. }
  assert (mem : forall (l : list string) x,
             x ∈ map Achievement.id
                   (List.filter (fun a => JS.includes l (Achievement.id a))
                      achievements)
             <-> x ∈ l /\ x ∈ map Achievement.id achievements).
  { intros l x. rewrite elem_of_map_filter. split.
    - intros (a & Ha & Hi & <-). apply includes_elem_of in Hi.
      split; [exact Hi |].
      rewrite list_elem_of_In. apply in_map. now apply list_elem_of_In.
    - intros [Hl Hx]. apply list_elem_of_In, in_map_iff in Hx
        as (a & <- & Ha).
      exists a. rewrite list_elem_of_In, includes_elem_of. auto. }
  assert (le : forall l : list string,
             0 <= AppView.unlockedCount achievements (Some l)
             <= Z.of_nat (length l)).
  { intros l. rewrite count. split; [lia |]. apply inj_le.
    apply submseteq_length, NoDup_submseteq.
    - now apply NoDup_map_filter.
    - intros x Hx. now apply mem in Hx. }
  split; [apply le | split].
  - intros Date_parse now user.
    pose proof (le (App.simulateUnlockedAchievements_unlocked Date_parse now
                      user)) as [_ H].
    pose proof (sublist_length _ _ (unlocked_sublist Date_parse now user))
      as H6.
    change (length unlockableIds) with 6%nat in H6. lia.
  - intros Hu Hsub. rewrite count. f_equal. apply Permutation_length.
    apply NoDup_Permutation; [now apply NoDup_map_filter | exact Hu |].
    intros x. rewrite mem. split; [tauto | auto].
Qed.

End TabsProofs.

(** ** Relative dates at the edges *)

Section FormatDateEdges.

Variable Date_parse : string -> JS.timeValue.

(** X15. For an instant that is not in the future the number shown is in
    the range of its unit: 2 to 6 days, 1 to 4 weeks, 1 to 12 months, at
    least 1 year; no form shows 0. *)
Theorem formatDate_unit_ranges (now : Z) (dateString : string) (t : Z) :
  Date_parse dateString = Some t ->
  t <= now ->
  exists r : RelativeDate,
    RepositoryList.formatDate Date_parse now dateString = label r
    /\ inUnitRange r.
Proof.
  intros Ht Hle. exists (relativeDate (daysSince now t)).
  split; [now apply formatDate_label |].
  assert (Hd : 0 <= daysSince now t).
  { unfold daysSince. rewrite msPerDay_value.
    apply Z.div_pos; lia. }
  unfold relativeDate.
  repeat case_decide; simpl; try exact I;
    repeat split; try lia;
    try (apply Z.div_le_lower_bound; lia);
    try (apply Z.lt_succ_r, Z.div_lt_upper_bound; lia).
Qed.

(** X16. An instant in the future, even by one millisecond, is never
    "today": the formatter shows a negative number of days. *)
Theorem formatDate_future (now : Z) (dateString : string) (t : Z) :
  Date_parse dateString = Some t ->
  now < t ->
  daysSince now t < 0
  /\ RepositoryList.formatDate Date_parse now dateString
     = "Updated " +:+ JS.toString (daysSince now t) +:+ " days ago".
Proof.
  intros Ht Hlt.
  assert (Hd : daysSince now t < 0).
  { unfold daysSince. rewrite msPerDay_value.
    apply Z.div_lt_upper_bound; lia. }
  split; [exact Hd |].
  rewrite (formatDate_label Date_parse now dateString t Ht).
  unfold relativeDate. repeat case_decide; try lia. reflexivity.
Qed.

End FormatDateEdges.

(** ** The order of the cards is determined *)

Section OrderProofs.

Variable Date_parse : string -> JS.timeValue.
Variable localeCompare : string -> string -> Z.

Local Abbreviation comparefn :=
  (RepositoryList.comparefn Date_parse localeCompare).
Local Abbreviation sortedRepos_of :=
  (RepositoryList.sortedRepos_of Date_parse localeCompare).
Local Abbreviation sortable := (sortable Date_parse).
Local Abbreviation ordered := (ordered Date_parse localeCompare).
Local Abbreviation sameRank := (sameRank Date_parse localeCompare).

(** X17. In every mode, not only by name, sorting the sorted sequence
    again changes nothing. *)
Theorem sortedRepos_idempotent
    (mode : RepositoryList.SortMode) (l : list Repository.t) :
  (mode = RepositoryList.name -> localeCompare_consistent localeCompare) ->
  Forall (sortable mode) l ->
  sortedRepos_of mode (sortedRepos_of mode l) = sortedRepos_of mode l.
Proof.
  intros Hloc Hl.
  apply (sort_idempotent _ (sortable mode));
    [now apply comparefn_consistent | exact Hl].
Qed.

(** X18. The order of the cards leaves no freedom: every arrangement of
    the repositories that is ordered by the mode and keeps the ties in the
    order of the input is the sequence that [sortedRepos] holds. *)
Theorem sortedRepos_unique
    (mode : RepositoryList.SortMode) (l l' : list Repository.t) :
  (mode = RepositoryList.name -> localeCompare_consistent localeCompare) ->
  Forall (sortable mode) l ->
  Permutation l' l ->
  StronglySorted (ordered mode) l' ->
  (forall k : Repository.t,
      sortable mode k ->
      filter (sameRank mode k) l' = filter (sameRank mode k) l) ->
  l' = sortedRepos_of mode l.
Proof.
  intros Hloc Hl Hperm Hs Hst.
  pose proof (comparefn_consistent Date_parse localeCompare mode Hloc)
    as Hc.
  assert (Hl' : Forall (sortable mode) l')
    by (eapply Permutation_Forall; [symmetry; exact Hperm | exact Hl]).
  apply (stable_sorted_unique _ (sortable mode)); auto.
  - apply (StronglySorted_impl (ordered mode) _ (sortable mode));
      [| exact Hl' | exact Hs].
    intros x y Hx Hy. now apply ordered_sortLe.
  - intros k Hk.
    rewrite <- (filter_iff_Forall (sameRank mode k)
                  (fun y => tied (comparefn mode) k y = true) l').
    + rewrite <- (filter_iff_Forall (sameRank mode k)
                    (fun y => tied (comparefn mode) k y = true) l).
      * now apply Hst.
      * eapply Forall_impl; [exact Hl |]. intros y Hy.
        now apply sameRank_tied.
    + eapply Forall_impl; [exact Hl' |]. intros y Hy.
      now apply sameRank_tied.
Qed.

End OrderProofs.

(** ** Topics of a card *)


(** ** The further properties on sample data *)

Lemma unlocked_monotone_witness :
  App.simulateUnlockedAchievements_unlocked JS.Date_parse_iso
    (Sample.now - 1000) octocatEarlier
  `sublist_of`
  App.simulateUnlockedAchievements_unlocked JS.Date_parse_iso Sample.now
    Sample.octocat.
Proof.
  apply (unlocked_monotone JS.Date_parse_iso (Sample.now - 1000) Sample.now
           octocatEarlier Sample.octocat);
    [vm_compute; discriminate | vm_compute; discriminate | reflexivity
    | vm_compute; discriminate].
Defined.

Lemma progress_monotone_witness :
  (App.getAchievementProgress (Some octocatEarlier) (Some [])
     (Achievement.mk "starstruck")
   <= App.getAchievementProgress (Some Sample.octocat) (Some [])
        (Achievement.mk "starstruck"))%Q.
Proof.
  apply (progress_monotone octocatEarlier Sample.octocat []
           (Achievement.mk "starstruck"));
    vm_compute; discriminate.
Defined.

Lemma other_ids_never_unlocked_witness :
  AppView.cardUnlocked
    (Some (App.simulateUnlockedAchievements_unlocked JS.Date_parse_iso
             Sample.now Sample.octocat))
    (Achievement.mk "starstruck") = false.
Proof.
  assert (H : "starstruck" ∉ unlockableIds)
    by (apply (bool_decide_unpack _); vm_compute; reflexivity).
  apply (other_ids_never_unlocked JS.Date_parse_iso Sample.now
           Sample.octocat (Achievement.mk "starstruck") H).
Defined.

Lemma unlockedCount_bound_witness :
  AppView.unlockedCount sampleCatalog
    (Some (App.simulateUnlockedAchievements_unlocked JS.Date_parse_iso
             Sample.now Sample.octocat)) <= 6.
Proof.
  assert (H : NoDup (map Achievement.id sampleCatalog))
    by (apply (bool_decide_unpack _); vm_compute; reflexivity).
  apply (unlockedCount_bound sampleCatalog [] H).
Defined.

Lemma formatDate_unit_ranges_witness :
  exists r : RelativeDate,
    RepositoryList.formatDate JS.Date_parse_iso Sample.now
      "2023-11-07T22:13:20Z" = label r
    /\ inUnitRange r.
Proof.
  apply (formatDate_unit_ranges JS.Date_parse_iso Sample.now
           "2023-11-07T22:13:20Z" 1699395200000);
    [reflexivity | vm_compute; discriminate].
Defined.

Lemma formatDate_future_witness :
  RepositoryList.formatDate JS.Date_parse_iso Sample.now
    "2023-11-17T22:13:21Z" = "Updated -4 days ago".
Proof.
  apply (formatDate_future JS.Date_parse_iso Sample.now
           "2023-11-17T22:13:21Z" 1700259201000);
    reflexivity.
Defined.

Lemma sortedRepos_idempotent_witness :
  RepositoryList.sortedRepos_of JS.Date_parse_iso codeUnitCompare
    RepositoryList.updated
    (RepositoryList.sortedRepos_of JS.Date_parse_iso codeUnitCompare
       RepositoryList.updated Sample.repositories)
  = RepositoryList.sortedRepos_of JS.Date_parse_iso codeUnitCompare
      RepositoryList.updated Sample.repositories.
Proof.
  assert (Hs : Forall (sortable JS.Date_parse_iso RepositoryList.updated)
                 Sample.repositories)
    by (repeat constructor; vm_compute; eexists; reflexivity).
  apply (sortedRepos_idempotent JS.Date_parse_iso codeUnitCompare
           RepositoryList.updated Sample.repositories
           (fun _ => codeUnitCompare_consistent) Hs).
Defined.

Lemma sortedRepos_unique_witness :
  [Sample.hello; Sample.twin; Sample.spoon; Sample.boys]
  = RepositoryList.sortedRepos_of JS.Date_parse_iso codeUnitCompare
      RepositoryList.name
      [Sample.hello; Sample.twin; Sample.spoon; Sample.boys].
Proof.
  assert (Hs : Forall (sortable JS.Date_parse_iso RepositoryList.name)
                 [Sample.hello; Sample.twin; Sample.spoon; Sample.boys])
    by (repeat constructor).
  assert (Ho : StronglySorted
                 (ordered JS.Date_parse_iso codeUnitCompare
                    RepositoryList.name)
                 [Sample.hello; Sample.twin; Sample.spoon; Sample.boys])
    by (repeat constructor; vm_compute; discriminate).
  apply (sortedRepos_unique JS.Date_parse_iso codeUnitCompare
           RepositoryList.name
           [Sample.hello; Sample.twin; Sample.spoon; Sample.boys]
           [Sample.hello; Sample.twin; Sample.spoon; Sample.boys]
           (fun _ => codeUnitCompare_consistent) Hs
           (Permutation_refl _) Ho (fun _ _ => eq_refl)).
Defined.

(** The counters on the sample catalog after the evaluation of
    [Sample.octocat]: six of nine unlocked, three locked. *)
Example tabs_sample :
  let unlocked :=
    Some (App.simulateUnlockedAchievements_unlocked JS.Date_parse_iso
            Sample.now Sample.octocat) in
  AppView.unlockedCount sampleCatalog unlocked = 6
  /\ AppView.lockedLabel sampleCatalog unlocked = 3
  /\ map Achievement.id
       (AppView.filteredAchievements sampleCatalog "locked" unlocked)
     = ["starstruck"; "galaxy-brain"; "public-sponsor"].
Proof. repeat split. Qed.
